(** * BRC-100 encrypted messaging CLI ([messaging.ts])

    A shallow embedding of the command-line program and the properties
    its specification states about it.

    The program is a thin driver over two external collaborators: the
    Node.js runtime ([fs], [crypto], [JSON], [Buffer], [process],
    [console]) and the BSV wallet packages ([@bsv/sdk],
    [@bsv/wallet-toolbox]).  Neither is part of the repository, so both
    are taken as one interface record, [Runtime]; everything that
    [messaging.ts] itself does (which file it reads and writes, which
    wallet method it calls with which arguments and in which order,
    what it prints and with which code the process ends) is embedded
    function by function over that interface. *)

From Stdlib Require Import ZArith NArith String Ascii Strings.Byte List.
From Stdlib Require Import DecimalString.
From stdpp Require Import base option list gmap strings fin_maps.
Import ListNotations.

Open Scope string_scope.
Open Scope list_scope.
Set Warnings "-register-all".

(** ** Values *)

(** [number[]] holding octets, as [Utils.toArray] and the wallet return. *)
Definition bytes := list byte.

(** JavaScript values that reach the program through [JSON.parse],
    [process.argv] and [console.log].  Numbers are restricted to the
    integers; the program never computes with them. *)
Inductive jsval : Type :=
| JUndefined
| JNull
| JBool (b : bool)
| JNum (n : Z)
| JStr (s : string)
| JArr (items : list jsval)
| JObj (fields : list (string * jsval)).

(** [!!v] of JavaScript: the values the [if (!x)] and [a || b] tests
    of the program let through. *)
Definition truthy (v : jsval) : bool :=
  match v with
  | JUndefined | JNull => false
  | JBool b => b
  | JNum n => negb (Z.eqb n 0)
  | JStr s => match s with EmptyString => false | String _ _ => true end
  | JArr _ | JObj _ => true
  end.

(** Own-property lookup in a parsed object (first binding wins). *)
Fixpoint assoc (name : string) (fields : list (string * jsval)) : jsval :=
  match fields with
  | [] => JUndefined
  | (k, v) :: rest => if String.eqb k name then v else assoc name rest
  end.

(** [process.argv[i]]: a string, or [undefined] past the end. *)
Definition argv_at (argv : list string) (i : nat) : jsval :=
  match argv !! i with
  | Some s => JStr s
  | None => JUndefined
  end.

(** The string behind an entry of [process.argv] that passed the
    truthiness test (such an entry is a non-empty string). *)
Definition string_of (v : jsval) : string :=
  match v with
  | JStr s => s
  | _ => EmptyString
  end.

(** The line feed and the double-quote character of the printed texts. *)
Definition nl : string := String (ascii_of_nat 10) EmptyString.

Definition dquote : string := String (ascii_of_nat 34) EmptyString.

(** What an external call gives back: a value, or a thrown [Error] with
    its [message]. *)
Inductive Result (A : Type) : Type :=
| Ok (a : A)
| Err (message : string).
Arguments Ok {A} a.
Arguments Err {A} message.

(** ** Arguments of the wallet methods, as the object literals of the source *)

(** [WalletProtocol]: the pair [securityLevel, protocolName]. *)
Definition WalletProtocol : Type := Z * string.

Record WalletEncryptArgs := {
  enc_plaintext : bytes;
  enc_protocolID : WalletProtocol;
  enc_keyID : jsval;
  enc_counterparty : jsval }.

Record CreateSignatureArgs := {
  sig_data : bytes;
  sig_protocolID : WalletProtocol;
  sig_keyID : jsval;
  sig_counterparty : jsval }.

Record VerifySignatureArgs := {
  ver_data : bytes;
  ver_signature : bytes;
  ver_protocolID : WalletProtocol;
  ver_keyID : jsval;
  ver_counterparty : jsval;
  ver_forSelf : bool }.

Record WalletDecryptArgs := {
  dec_ciphertext : bytes;
  dec_protocolID : WalletProtocol;
  dec_keyID : jsval;
  dec_counterparty : jsval }.

(** The [env] object and the arguments of [Setup.createWalletSQLite]
    ([filePath: undefined] inside [env] carries no information and is
    left out). *)
Record SetupEnv := {
  env_chain : string;
  env_identityKey : string;
  env_identityKey2 : string;
  env_taalApiKey : string;
  env_devKeys : list (string * jsval);
  env_mySQLConnection : string }.

Record SetupWalletSQLiteArgs := {
  setup_env : SetupEnv;
  setup_rootKeyHex : jsval;
  setup_filePath : string;
  setup_databaseName : string }.

(** What [Setup.createWalletSQLite] resolves to, as far as the program
    reads it: the wallet object and [identityKey]. *)
Record SetupWallet (Wallet : Type) := {
  wallet : Wallet;
  identityKey : string }.
Arguments wallet {Wallet} _.
Arguments identityKey {Wallet} _.

(** ** The external collaborators *)

(** Everything [messaging.ts] imports.  The four capability operations
    are functions of the wallet object and their arguments;
    [createWalletSQLite] also owns the database file it is pointed at:
    it receives the file's content ([None]: no such file) and returns
    the content it leaves behind, also when it throws.  Random sources
    are indexed by the number of draws made so far. *)
Record Runtime := {
  Wallet : Type;
  (* @bsv/sdk *)
  PrivateKey_fromHex_toPublicKey_toString : jsval -> Result string;
  PrivateKey_fromRandom_toHex : nat -> string;
  Utils_toArray_utf8 : string -> bytes;
  Utils_toUTF8 : bytes -> string;
  (* @bsv/wallet-toolbox *)
  Setup_createWalletSQLite :
    SetupWalletSQLiteArgs -> option string ->
    Result (SetupWallet Wallet) * option string;
  wallet_encrypt : Wallet -> WalletEncryptArgs -> Result bytes;
  wallet_createSignature : Wallet -> CreateSignatureArgs -> Result bytes;
  wallet_verifySignature : Wallet -> VerifySignatureArgs -> Result bool;
  wallet_decrypt : Wallet -> WalletDecryptArgs -> Result bytes;
  wallet_destroy : Wallet -> Result unit;
  (* Node.js *)
  crypto_randomBytes_hex : nat -> nat -> string;
  JSON_parse : string -> Result jsval;
  JSON_stringify : jsval -> nat -> string;
  Buffer_toString_base64 : bytes -> string;
  Buffer_from_base64 : jsval -> Result bytes }.

(** ** The process: state, outcomes and the command monad *)

(** The outcome of a piece of the program: it returns, it calls
    [process.exit(code)], or it throws (a rejected promise). *)
Inductive Res (A : Type) : Type :=
| Ret (a : A)
| Exit (code : Z)
| Throw (message : string).
Arguments Ret {A} a.
Arguments Exit {A} code.
Arguments Throw {A} message.

(** What the program does to the file system, in order.  [FsWriteFile]
    is an [fs.writeFileSync] of the program itself; [FsDatabase] is the
    wallet library having been let loose on its database file, leaving
    the given content. *)
Inductive FsOp : Type :=
| FsWriteFile (path data : string)
| FsDatabase (path : string) (content : option string).

Section Program.

Variable R : Runtime.

(** Calls into the key and wallet machinery, in order. *)
Inductive Call : Type :=
| CallRandomBytes (n : nat)
| CallFromRandom
| CallToPublicKey (hex : jsval)
| CallCreateWallet (a : SetupWalletSQLiteArgs)
| CallEncrypt (w : Wallet R) (a : WalletEncryptArgs)
| CallCreateSignature (w : Wallet R) (a : CreateSignatureArgs)
| CallVerifySignature (w : Wallet R) (a : VerifySignatureArgs)
| CallDecrypt (w : Wallet R) (a : WalletDecryptArgs)
| CallDestroy (w : Wallet R).

(** The files (path to content), both console streams (one entry per
    call, holding the arguments), the number of random draws made, and
    the two logs. *)
Record World := {
  disk : gmap string string;
  stdout : list (list jsval);
  stderr : list (list jsval);
  draws : nat;
  calls : list Call;
  fs_ops : list FsOp }.

Definition M (A : Type) : Type := World -> Res A * World.

Definition ret {A} (a : A) : M A := fun w => (Ret a, w).

Definition bind {A B} (m : M A) (k : A -> M B) : M B :=
  fun w =>
    match m w with
    | (Ret a, w') => k a w'
    | (Exit c, w') => (Exit c, w')
    | (Throw e, w') => (Throw e, w')
    end.

Notation "x <- m ;; k" := (bind m (fun x => k))
  (at level 100, m at next level, right associativity).
Notation "m ;;; k" := (bind m (fun _ => k))
  (at level 100, right associativity).

(** [throw] and the settling of an external call's result. *)
Definition throw {A} (message : string) : M A := fun w => (Throw message, w).

Definition settle {A} (r : Result A) : M A :=
  match r with
  | Ok a => ret a
  | Err e => throw e
  end.

Definition record_call (c : Call) : M unit :=
  fun w => (Ret tt,
            {| disk := disk w; stdout := stdout w; stderr := stderr w;
               draws := draws w; calls := calls w ++ [c];
               fs_ops := fs_ops w |}).

(** *** Node.js primitives *)

Definition console_log (args : list jsval) : M unit :=
  fun w => (Ret tt,
            {| disk := disk w; stdout := stdout w ++ [args];
               stderr := stderr w; draws := draws w; calls := calls w;
               fs_ops := fs_ops w |}).

Definition console_error (args : list jsval) : M unit :=
  fun w => (Ret tt,
            {| disk := disk w; stdout := stdout w;
               stderr := stderr w ++ [args]; draws := draws w;
               calls := calls w; fs_ops := fs_ops w |}).

Definition process_exit {A} (code : Z) : M A := fun w => (Exit code, w).

Definition fs_existsSync (path : string) : M bool :=
  fun w => (Ret (bool_decide (is_Some (disk w !! path))), w).

(** [fs.readFileSync(path, "utf8")]; a missing file is [ENOENT]. *)
Definition fs_readFileSync (path : string) : M string :=
  fun w =>
    match disk w !! path with
    | Some data => (Ret data, w)
    | None => (Throw "ENOENT: no such file or directory", w)
    end.

(** [fs.writeFileSync(path, data)] running to completion. *)
Definition fs_writeFileSync (path data : string) : M unit :=
  fun w => (Ret tt,
            {| disk := <[path := data]> (disk w); stdout := stdout w;
               stderr := stderr w; draws := draws w; calls := calls w;
               fs_ops := fs_ops w ++ [FsWriteFile path data] |}).

(** [crypto.randomBytes(n).toString("hex")]. *)
Definition crypto_randomBytes_toString_hex (n : nat) : M string :=
  record_call (CallRandomBytes n) ;;;
  fun w => (Ret (crypto_randomBytes_hex R n (draws w)),
            {| disk := disk w; stdout := stdout w; stderr := stderr w;
               draws := S (draws w); calls := calls w;
               fs_ops := fs_ops w |}).

(** [v.name]: a [TypeError] on [null] and [undefined], [undefined] for
    the names the program reads on any other non-object. *)
Definition get_prop (v : jsval) (name : string) : M jsval :=
  match v with
  | JUndefined | JNull =>
      throw ("Cannot read properties of null or undefined (reading '"
             +:+ name +:+ "')")
  | JObj fields => ret (assoc name fields)
  | _ => ret JUndefined
  end.

(** *** Wallet library calls *)

Definition PrivateKey_toPublicKey (hex : jsval) : M string :=
  record_call (CallToPublicKey hex) ;;;
  settle (PrivateKey_fromHex_toPublicKey_toString R hex).

(** [PrivateKey.fromRandom().toHex()]. *)
Definition PrivateKey_fromRandom : M string :=
  record_call CallFromRandom ;;;
  fun w => (Ret (PrivateKey_fromRandom_toHex R (draws w)),
            {| disk := disk w; stdout := stdout w; stderr := stderr w;
               draws := S (draws w); calls := calls w;
               fs_ops := fs_ops w |}).

(** [await Setup.createWalletSQLite(args)]: the library reads and
    rewrites the file at [args.filePath]. *)
Definition createWalletSQLite (a : SetupWalletSQLiteArgs)
  : M (SetupWallet (Wallet R)) :=
  record_call (CallCreateWallet a) ;;;
  fun w =>
    let path := setup_filePath a in
    let '(r, db) := Setup_createWalletSQLite R a (disk w !! path) in
    let w' := {| disk := match db with
                         | Some content => <[path := content]> (disk w)
                         | None => delete path (disk w)
                         end;
                 stdout := stdout w; stderr := stderr w; draws := draws w;
                 calls := calls w;
                 fs_ops := fs_ops w ++ [FsDatabase path db] |} in
    settle r w'.

Definition encrypt (wl : Wallet R) (a : WalletEncryptArgs) : M bytes :=
  record_call (CallEncrypt wl a) ;;; settle (wallet_encrypt R wl a).

Definition createSignature (wl : Wallet R) (a : CreateSignatureArgs)
  : M bytes :=
  record_call (CallCreateSignature wl a) ;;;
  settle (wallet_createSignature R wl a).

Definition verifySignature (wl : Wallet R) (a : VerifySignatureArgs)
  : M bool :=
  record_call (CallVerifySignature wl a) ;;;
  settle (wallet_verifySignature R wl a).

Definition decrypt (wl : Wallet R) (a : WalletDecryptArgs) : M bytes :=
  record_call (CallDecrypt wl a) ;;; settle (wallet_decrypt R wl a).

Definition destroy (wl : Wallet R) : M unit :=
  record_call (CallDestroy wl) ;;; settle (wallet_destroy R wl).

(** ** [messaging.ts] *)

(** SecurityLevel 2 = per-counterparty per-application. *)
Definition MESSAGING_PROTOCOL : WalletProtocol := (2%Z, "encrypted messaging").

Definition DEFAULT_KEY_ID : string := "default".

(** Both paths are [path.join(__dirname, ...)]; they are written here
    relative to the module's directory. *)
Definition KEY_FILE : string := "wallet-key.json".
Definition DB_FILE : string := "wallet.sqlite".

(** *** Key persistence *)

Definition loadKey : M jsval :=
  present <- fs_existsSync KEY_FILE ;;
  if negb present then ret JNull
  else
    text <- fs_readFileSync KEY_FILE ;;
    settle (JSON_parse R text).

(** The object literal [{ privateKeyHex, identityKey }]. *)
Definition key_record (privateKeyHex identityKey : string) : jsval :=
  JObj [("privateKeyHex", JStr privateKeyHex);
        ("identityKey", JStr identityKey)].

Definition saveKey (privateKeyHex identityKey : string) : M unit :=
  fs_writeFileSync KEY_FILE
    (JSON_stringify R (key_record privateKeyHex identityKey) 2).

(** *** Wallet setup *)

Definition createWallet (rootKeyHex : jsval) : M (SetupWallet (Wallet R)) :=
  identityKey <- PrivateKey_toPublicKey rootKeyHex ;;
  setup <- createWalletSQLite
    {| setup_env :=
         {| env_chain := "test";
            env_identityKey := identityKey;
            env_identityKey2 := identityKey;
            env_taalApiKey := "testnet_nokey";
            env_devKeys := [(identityKey, rootKeyHex)];
            env_mySQLConnection := EmptyString |};
       setup_rootKeyHex := rootKeyHex;
       setup_filePath := DB_FILE;
       setup_databaseName := "messaging_wallet" |} ;;
  ret setup.

Definition loadWallet : M (SetupWallet (Wallet R)) :=
  stored <- loadKey ;;
  if negb (truthy stored) then
    console_error [JStr "No wallet found. Run 'init' first."] ;;;
    process_exit 1
  else
    privateKeyHex <- get_prop stored "privateKeyHex" ;;
    createWallet privateKeyHex.

(** *** Commands *)

Definition runInit : M unit :=
  existing <- loadKey ;;
  if truthy existing then
    console_log [JStr "Wallet already exists."] ;;;
    shown <- get_prop existing "identityKey" ;;
    console_log [JStr "Identity key:"; shown] ;;;
    console_log [] ;;;
    console_log [JStr "Share this key with the person you want to message."] ;;;
    ret tt
  else
    privateKeyHex <- crypto_randomBytes_toString_hex 32 ;;
    identityKey <- PrivateKey_toPublicKey (JStr privateKeyHex) ;;
    (* Create the wallet to initialize the database *)
    setup <- createWallet (JStr privateKeyHex) ;;
    destroy (wallet setup) ;;;
    (* Persist the key *)
    saveKey privateKeyHex identityKey ;;;
    console_log [JStr "Wallet created."] ;;;
    console_log [JStr "Identity key:"; JStr identityKey] ;;;
    console_log [] ;;;
    console_log [JStr "Share this key with the person you want to message."].

Definition runIdentity : M unit :=
  stored <- loadKey ;;
  if negb (truthy stored) then
    console_error [JStr "No wallet found. Run 'init' first."] ;;;
    process_exit 1
  else
    shown <- get_prop stored "identityKey" ;;
    console_log [shown].

(** The envelope object literal of [runEncrypt]. *)
Definition envelope_of (sender : string) (keyID : jsval)
    (ciphertext signature : bytes) : jsval :=
  JObj [("sender", JStr sender);
        ("keyID", keyID);
        ("ciphertext", JStr (Buffer_toString_base64 R ciphertext));
        ("signature", JStr (Buffer_toString_base64 R signature))].

(** [process.argv[5] || DEFAULT_KEY_ID]. *)
Definition keyID_of (argv : list string) : jsval :=
  if truthy (argv_at argv 5) then argv_at argv 5 else JStr DEFAULT_KEY_ID.

Definition runEncrypt (argv : list string) : M unit :=
  let recipientPubKey := argv_at argv 3 in
  let message := argv_at argv 4 in
  let keyID := keyID_of argv in
  if negb (truthy recipientPubKey) || negb (truthy message) then
    console_error
      [JStr ("Usage: npx ts-node messaging.ts encrypt <recipient-pubkey> "
             +:+ dquote +:+ "message" +:+ dquote +:+ " [keyID]")] ;;;
    process_exit 1
  else
    setup <- loadWallet ;;
    (* Encrypt using the wallet's BRC-100 encrypt method *)
    ciphertext <- encrypt (wallet setup)
      {| enc_plaintext :=
           Utils_toArray_utf8 R (string_of message);
         enc_protocolID := MESSAGING_PROTOCOL;
         enc_keyID := keyID;
         enc_counterparty := recipientPubKey |} ;;
    (* Sign the ciphertext using the wallet's BRC-100 createSignature method *)
    signature <- createSignature (wallet setup)
      {| sig_data := ciphertext;
         sig_protocolID := MESSAGING_PROTOCOL;
         sig_keyID := keyID;
         sig_counterparty := recipientPubKey |} ;;
    (* Output the envelope *)
    console_log
      [JStr (JSON_stringify R
               (envelope_of (identityKey setup) keyID ciphertext signature)
               0)] ;;;
    destroy (wallet setup).

Definition runDecrypt (argv : list string) : M unit :=
  let envelopeJson := argv_at argv 3 in
  if negb (truthy envelopeJson) then
    console_error
      [JStr "Usage: npx ts-node messaging.ts decrypt '<envelope-json>'"] ;;;
    process_exit 1
  else
    envelope <- settle (JSON_parse R (string_of envelopeJson)) ;;
    setup <- loadWallet ;;
    env_ciphertext <- get_prop envelope "ciphertext" ;;
    ciphertextBytes <- settle (Buffer_from_base64 R env_ciphertext) ;;
    env_signature <- get_prop envelope "signature" ;;
    signatureBytes <- settle (Buffer_from_base64 R env_signature) ;;
    env_keyID <- get_prop envelope "keyID" ;;
    env_sender <- get_prop envelope "sender" ;;
    (* Verify signature using the wallet's BRC-100 verifySignature method *)
    valid <- verifySignature (wallet setup)
      {| ver_data := ciphertextBytes;
         ver_signature := signatureBytes;
         ver_protocolID := MESSAGING_PROTOCOL;
         ver_keyID := env_keyID;
         ver_counterparty := env_sender;
         ver_forSelf := false |} ;;
    console_log [JStr "Signature valid:"; JBool valid] ;;;
    (* Decrypt using the wallet's BRC-100 decrypt method *)
    plaintext <- decrypt (wallet setup)
      {| dec_ciphertext := ciphertextBytes;
         dec_protocolID := MESSAGING_PROTOCOL;
         dec_keyID := env_keyID;
         dec_counterparty := env_sender |} ;;
    console_log [JStr "From:"; env_sender] ;;;
    console_log [JStr "Message:"; JStr (Utils_toUTF8 R plaintext)] ;;;
    destroy (wallet setup).

(** [s.slice(0, n) + "..."]. *)
Definition abbreviate (n : nat) (s : string) : string :=
  String.substring 0 n s +:+ "...".

Definition DEMO_PLAINTEXT : string :=
  "Hello Bob, this is a secret message from Alice!".

Definition runDemo : M unit :=
  console_log [JStr ("=== BRC-100 Encrypted Messaging Demo ===" +:+ nl)] ;;;
  aliceKey <- PrivateKey_fromRandom ;;
  bobKey <- PrivateKey_fromRandom ;;
  console_log [JStr "Setting up Alice's wallet..."] ;;;
  alice <- createWallet (JStr aliceKey) ;;
  console_log [JStr "Alice identity key:";
               JStr (abbreviate 24 (identityKey alice) +:+ nl)] ;;;
  console_log [JStr "Setting up Bob's wallet..."] ;;;
  bob <- createWallet (JStr bobKey) ;;
  console_log [JStr "Bob identity key:";
               JStr (abbreviate 24 (identityKey bob) +:+ nl)] ;;;
  let plaintext := DEMO_PLAINTEXT in
  console_log [JStr "Plaintext:"; JStr plaintext] ;;;
  console_log [] ;;;
  console_log [JStr "Alice encrypts for Bob..."] ;;;
  ciphertext <- encrypt (wallet alice)
    {| enc_plaintext := Utils_toArray_utf8 R plaintext;
       enc_protocolID := MESSAGING_PROTOCOL;
       enc_keyID := JStr DEFAULT_KEY_ID;
       enc_counterparty := JStr (identityKey bob) |} ;;
  console_log [JStr "Ciphertext:";
               JStr (abbreviate 40 (Buffer_toString_base64 R ciphertext))] ;;;
  console_log [] ;;;
  console_log [JStr "Alice signs the ciphertext..."] ;;;
  signature <- createSignature (wallet alice)
    {| sig_data := ciphertext;
       sig_protocolID := MESSAGING_PROTOCOL;
       sig_keyID := JStr DEFAULT_KEY_ID;
       sig_counterparty := JStr (identityKey bob) |} ;;
  console_log [JStr "Signature:";
               JStr (abbreviate 40 (Buffer_toString_base64 R signature))] ;;;
  console_log [] ;;;
  console_log [JStr "Bob verifies Alice's signature..."] ;;;
  valid <- verifySignature (wallet bob)
    {| ver_data := ciphertext;
       ver_signature := signature;
       ver_protocolID := MESSAGING_PROTOCOL;
       ver_keyID := JStr DEFAULT_KEY_ID;
       ver_counterparty := JStr (identityKey alice);
       ver_forSelf := false |} ;;
  console_log [JStr "Signature valid:"; JBool valid] ;;;
  console_log [] ;;;
  console_log [JStr "Bob decrypts the message..."] ;;;
  decrypted <- decrypt (wallet bob)
    {| dec_ciphertext := ciphertext;
       dec_protocolID := MESSAGING_PROTOCOL;
       dec_keyID := JStr DEFAULT_KEY_ID;
       dec_counterparty := JStr (identityKey alice) |} ;;
  let decryptedText := Utils_toUTF8 R decrypted in
  console_log [JStr "Decrypted:"; JStr decryptedText] ;;;
  console_log [] ;;;
  let matched := String.eqb decryptedText plaintext in
  console_log [JStr "Round-trip OK:"; JBool matched] ;;;
  destroy (wallet alice) ;;;
  destroy (wallet bob) ;;;
  if negb matched then process_exit 1 else ret tt.

(** *** CLI *)

Definition printUsage : M unit :=
  console_log [JStr ("BRC-100 Encrypted Messaging" +:+ nl)] ;;;
  console_log [JStr "Commands:"] ;;;
  console_log [JStr "  init                                  Create a new wallet identity"] ;;;
  console_log [JStr "  identity                              Show your public identity key"] ;;;
  console_log [JStr ("  encrypt <recipient-pubkey> " +:+ dquote +:+ "message"
                     +:+ dquote +:+ "   Encrypt and sign a message")] ;;;
  console_log [JStr "  decrypt '<envelope-json>'              Verify and decrypt a message"] ;;;
  console_log [JStr "  demo                                  Run a self-contained Alice/Bob demo"].

(** [run.catch((err) => { console.error("Error:", err.message);
    process.exit(1) })]. *)
Definition catch (run : M unit) : M unit :=
  fun w =>
    match run w with
    | (Throw message, w') =>
        (console_error [JStr "Error:"; JStr message] ;;; process_exit 1) w'
    | settled => settled
    end.

(** The [require.main === module] block. *)
Definition main (argv : list string) : M unit :=
  let command := argv !! 2%nat in
  if bool_decide (command = Some "init") then catch runInit
  else if bool_decide (command = Some "identity") then catch runIdentity
  else if bool_decide (command = Some "encrypt") then catch (runEncrypt argv)
  else if bool_decide (command = Some "decrypt") then catch (runDecrypt argv)
  else if bool_decide (command = Some "demo") then catch runDemo
  else printUsage ;;; process_exit 0.

(** The status the process ends with: 0 when the event loop drains, the
    argument of [process.exit] otherwise, and 1 for an uncaught
    rejection. *)
Definition exit_code {A} (r : Res A) : Z :=
  match r with
  | Ret _ => 0
  | Exit code => code
  | Throw _ => 1
  end.

End Program.

Arguments CallRandomBytes {R} n.
Arguments CallFromRandom {R}.
Arguments CallToPublicKey {R} hex.
Arguments CallCreateWallet {R} a.
Arguments CallEncrypt {R} w a.
Arguments CallCreateSignature {R} w a.
Arguments CallVerifySignature {R} w a.
Arguments CallDecrypt {R} w a.
Arguments CallDestroy {R} w.
Arguments disk {R} _.
Arguments stdout {R} _.
Arguments stderr {R} _.
Arguments draws {R} _.
Arguments calls {R} _.
Arguments fs_ops {R} _.
Arguments exit_code {A} r.

(** ** Dying half-way: what can be left on disk *)

(** An operation run to completion. *)
Definition apply_op (op : FsOp) (d : gmap string string) : gmap string string :=
  match op with
  | FsWriteFile path data => <[path := data]> d
  | FsDatabase path (Some content) => <[path := content]> d
  | FsDatabase path None => delete path d
  end.

Definition apply_ops (ops : list FsOp) (d : gmap string string)
  : gmap string string :=
  fold_left (fun acc op => apply_op op acc) ops d.

(** An operation cut short.  [fs.writeFileSync] opens its target with
    flag ['w'] (create or truncate) and then writes the data from the
    front, so a cut leaves a strict prefix of the data in the target
    itself.  Of the wallet library nothing is known but the file it was
    given. *)
Inductive torn : FsOp -> gmap string string -> gmap string string -> Prop :=
| torn_write path data n d :
    n < String.length data ->
    torn (FsWriteFile path data) d (<[path := String.substring 0 n data]> d)
| torn_database_some path content partial d :
    torn (FsDatabase path content) d (<[path := partial]> d)
| torn_database_none path content d :
    torn (FsDatabase path content) d (delete path d).

(** [crash_state ops d d']: a process that performs [ops] on disk [d]
    and dies at some point, possibly in the middle of an operation,
    possibly after the last one, leaves [d']. *)
Inductive crash_state
  : list FsOp -> gmap string string -> gmap string string -> Prop :=
| crash_between ops d : crash_state ops d d
| crash_during op ops d d' : torn op d d' -> crash_state (op :: ops) d d'
| crash_later op ops d d' :
    crash_state ops (apply_op op d) d' -> crash_state (op :: ops) d d'.

(** ** A runtime to run the program on

    A small, fully computable [Runtime]: JSON and base64 as Node.js
    does them on the texts the program handles, deterministic "random"
    draws, and a wallet library with toy key pairs (the public key is
    ["02"] followed by the private hex), a one-octet authentication tag
    in front of the plaintext as cipher and a one-octet signature.  It
    serves to evaluate the embedding on concrete command lines. *)
Module Mock.

Definition dq : ascii := ascii_of_nat 34.
Definition bs : ascii := ascii_of_nat 92.
Definition lf : ascii := ascii_of_nat 10.

(** *** JSON.stringify *)

Fixpoint escape (s : string) : string :=
  match s with
  | EmptyString => EmptyString
  | String c rest =>
      if Ascii.eqb c dq then String bs (String dq (escape rest))
      else if Ascii.eqb c bs then String bs (String bs (escape rest))
      else if Ascii.eqb c lf then String bs (String "n" (escape rest))
      else String c (escape rest)
  end.

Definition quote (s : string) : string :=
  String dq (escape s +:+ String dq EmptyString).

Fixpoint spaces (n : nat) : string :=
  match n with
  | O => EmptyString
  | S n' => String " " (spaces n')
  end.

Definition line_break (indent depth : nat) : string :=
  match indent with
  | O => EmptyString
  | S _ => String lf (spaces (indent * depth))
  end.

Definition bracket (indent depth : nat) (opening closing : string)
    (items : list string) : string :=
  match items with
  | [] => opening +:+ closing
  | _ =>
      opening +:+ line_break indent (S depth)
      +:+ String.concat ("," +:+ line_break indent (S depth)) items
      +:+ line_break indent depth +:+ closing
  end.

Fixpoint stringify (indent depth : nat) (v : jsval) : string :=
  match v with
  | JUndefined | JNull => "null"
  | JBool true => "true"
  | JBool false => "false"
  | JNum n => NilZero.string_of_int (Z.to_int n)
  | JStr s => quote s
  | JArr items =>
      bracket indent depth "[" "]" (map (stringify indent (S depth)) items)
  | JObj fields =>
      bracket indent depth "{" "}"
        (map (fun kv =>
                match kv with
                | (k, x) =>
                    quote k +:+ ":"
                    +:+ match indent with O => EmptyString | S _ => " " end
                    +:+ stringify indent (S depth) x
                end) fields)
  end.

(** *** JSON.parse *)

Definition is_space (c : ascii) : bool :=
  Ascii.eqb c " " || Ascii.eqb c lf || Ascii.eqb c (ascii_of_nat 9)
  || Ascii.eqb c (ascii_of_nat 13).

Fixpoint skip_ws (s : string) : string :=
  match s with
  | String c rest => if is_space c then skip_ws rest else s
  | EmptyString => s
  end.

(** The text after an opening quote, up to the closing one. *)
Fixpoint parse_chars (s : string) : option (string * string) :=
  match s with
  | EmptyString => None
  | String c rest =>
      if Ascii.eqb c dq then Some (EmptyString, rest)
      else if Ascii.eqb c bs then
        match rest with
        | String e rest' =>
            let plain :=
              if Ascii.eqb e "n" then Some lf
              else if Ascii.eqb e "t" then Some (ascii_of_nat 9)
              else if Ascii.eqb e "r" then Some (ascii_of_nat 13)
              else if Ascii.eqb e dq || Ascii.eqb e bs || Ascii.eqb e "/"
                   then Some e
              else None in
            match plain, parse_chars rest' with
            | Some x, Some (body, after) => Some (String x body, after)
            | _, _ => None
            end
        | EmptyString => None
        end
      else
        match parse_chars rest with
        | Some (body, after) => Some (String c body, after)
        | None => None
        end
  end.

Definition digit_of (c : ascii) : option Z :=
  let n := nat_of_ascii c in
  if (48 <=? n)%nat && (n <=? 57)%nat then Some (Z.of_nat (n - 48)) else None.

Fixpoint parse_digits (acc : Z) (s : string) : Z * string :=
  match s with
  | String c rest =>
      match digit_of c with
      | Some d => parse_digits (acc * 10 + d)%Z rest
      | None => (acc, s)
      end
  | EmptyString => (acc, s)
  end.

Definition strip_prefix (p s : string) : option string :=
  if String.prefix p s
  then Some (String.substring (String.length p)
               (String.length s - String.length p) s)
  else None.

Section Members.

Variable parse_value : string -> option (jsval * string).

(** After the first element: [, element]* followed by the closing
    bracket. *)
Fixpoint parse_elements (n : nat) (s : string)
  : option (list jsval * string) :=
  match n with
  | O => None
  | S n' =>
      match skip_ws s with
      | String c rest =>
          if Ascii.eqb c "]" then Some ([], rest)
          else if Ascii.eqb c "," then
            match parse_value rest with
            | Some (x, after) =>
                match parse_elements n' after with
                | Some (xs, final) => Some (x :: xs, final)
                | None => None
                end
            | None => None
            end
          else None
      | EmptyString => None
      end
  end.

Definition parse_member (s : string) : option ((string * jsval) * string) :=
  match skip_ws s with
  | String c rest =>
      if Ascii.eqb c dq then
        match parse_chars rest with
        | Some (k, after) =>
            match skip_ws after with
            | String colon after' =>
                if Ascii.eqb colon ":" then
                  match parse_value after' with
                  | Some (x, final) => Some ((k, x), final)
                  | None => None
                  end
                else None
            | EmptyString => None
            end
        | None => None
        end
      else None
  | EmptyString => None
  end.

Fixpoint parse_members (n : nat) (s : string)
  : option (list (string * jsval) * string) :=
  match n with
  | O => None
  | S n' =>
      match skip_ws s with
      | String c rest =>
          if Ascii.eqb c "}" then Some ([], rest)
          else if Ascii.eqb c "," then
            match parse_member rest with
            | Some (kx, after) =>
                match parse_members n' after with
                | Some (kxs, final) => Some (kx :: kxs, final)
                | None => None
                end
            | None => None
            end
          else None
      | EmptyString => None
      end
  end.

End Members.

Fixpoint parse_value (fuel : nat) (s : string) : option (jsval * string) :=
  match fuel with
  | O => None
  | S fuel' =>
      let t := skip_ws s in
      match t with
      | EmptyString => None
      | String c rest =>
          if Ascii.eqb c dq then
            match parse_chars rest with
            | Some (body, after) => Some (JStr body, after)
            | None => None
            end
          else if Ascii.eqb c "{" then
            match skip_ws rest with
            | String c' rest' =>
                if Ascii.eqb c' "}" then Some (JObj [], rest')
                else
                  match parse_member (parse_value fuel') rest with
                  | Some (kx, after) =>
                      match parse_members (parse_value fuel') fuel' after with
                      | Some (kxs, final) => Some (JObj (kx :: kxs), final)
                      | None => None
                      end
                  | None => None
                  end
            | EmptyString => None
            end
          else if Ascii.eqb c "[" then
            match skip_ws rest with
            | String c' rest' =>
                if Ascii.eqb c' "]" then Some (JArr [], rest')
                else
                  match parse_value fuel' rest with
                  | Some (x, after) =>
                      match parse_elements (parse_value fuel') fuel' after with
                      | Some (xs, final) => Some (JArr (x :: xs), final)
                      | None => None
                      end
                  | None => None
                  end
            | EmptyString => None
            end
          else if Ascii.eqb c "-" then
            match rest with
            | String d _ =>
                match digit_of d with
                | Some _ =>
                    let '(n, after) := parse_digits 0 rest in
                    Some (JNum (- n), after)
                | None => None
                end
            | EmptyString => None
            end
          else
            match digit_of c with
            | Some _ =>
                let '(n, after) := parse_digits 0 t in Some (JNum n, after)
            | None =>
                match strip_prefix "null" t, strip_prefix "true" t,
                      strip_prefix "false" t with
                | Some after, _, _ => Some (JNull, after)
                | _, Some after, _ => Some (JBool true, after)
                | _, _, Some after => Some (JBool false, after)
                | _, _, _ => None
                end
            end
      end
  end.

(** A document is one value and nothing but white space after it. *)
Definition parse (text : string) : Result jsval :=
  match parse_value (S (String.length text)) text with
  | Some (v, rest) =>
      match skip_ws rest with
      | EmptyString => Ok v
      | String _ _ => Err "Unexpected non-whitespace character after JSON"
      end
  | None => Err "Unexpected token in JSON"
  end.

(** *** Buffer: base64 *)

Definition alphabet : string :=
  "ABCDEFGHIJKLMNOPQRSTUVWXYZabcdefghijklmnopqrstuvwxyz0123456789+/".

Definition sextet_char (n : N) : ascii :=
  match String.get (N.to_nat n) alphabet with
  | Some c => c
  | None => "="%char
  end.

Fixpoint base64_encode (l : bytes) : string :=
  match l with
  | [] => EmptyString
  | [a] =>
      let x := Byte.to_N a in
      String (sextet_char (x / 4))
        (String (sextet_char (x mod 4 * 16)) "==")
  | [a; b] =>
      let x := Byte.to_N a in
      let y := Byte.to_N b in
      String (sextet_char (x / 4))
        (String (sextet_char (x mod 4 * 16 + y / 16))
           (String (sextet_char (y mod 16 * 4)) "="))
  | a :: b :: c :: rest =>
      let x := Byte.to_N a in
      let y := Byte.to_N b in
      let z := Byte.to_N c in
      String (sextet_char (x / 4))
        (String (sextet_char (x mod 4 * 16 + y / 16))
           (String (sextet_char (y mod 16 * 4 + z / 64))
              (String (sextet_char (z mod 64)) (base64_encode rest))))
  end.

Fixpoint index_in (c : ascii) (s : string) : option N :=
  match s with
  | EmptyString => None
  | String d rest =>
      if Ascii.eqb c d then Some 0%N
      else option_map N.succ (index_in c rest)
  end.

(** The sextets of a text; characters outside the alphabet are skipped,
    as Node.js does. *)
Fixpoint sextets (s : string) : list N :=
  match s with
  | EmptyString => []
  | String c rest =>
      match index_in c alphabet with
      | Some n => n :: sextets rest
      | None => sextets rest
      end
  end.

Definition octet (n : N) : byte :=
  match Byte.of_N (n mod 256) with
  | Some b => b
  | None => x00
  end.

Fixpoint octets (l : list N) : bytes :=
  match l with
  | p :: q :: r :: t :: rest =>
      octet (p * 4 + q / 16) :: octet (q mod 16 * 16 + r / 4)
      :: octet (r mod 4 * 64 + t) :: octets rest
  | [p; q; r] => [octet (p * 4 + q / 16); octet (q mod 16 * 16 + r / 4)]
  | [p; q] => [octet (p * 4 + q / 16)]
  | _ => []
  end.

Definition from_base64 (v : jsval) : Result bytes :=
  match v with
  | JStr s => Ok (octets (sextets s))
  | _ => Err "The first argument must be of type string"
  end.

(** *** Random sources *)

Definition hex_digit (n : N) : ascii :=
  match String.get (N.to_nat n) "0123456789abcdef" with
  | Some c => c
  | None => "0"%char
  end.

Fixpoint repeat_pair (hi lo : ascii) (n : nat) : string :=
  match n with
  | O => EmptyString
  | S n' => String hi (String lo (repeat_pair hi lo n'))
  end.

(** [len] octets in hex, all equal to [v mod 256]. *)
Definition hex_fill (v : N) (len : nat) : string :=
  repeat_pair (hex_digit ((v mod 256) / 16)) (hex_digit (v mod 16)) len.

Definition randomBytes_hex (len draw : nat) : string :=
  hex_fill (N.of_nat draw + 1) len.

Definition fromRandom_toHex (draw : nat) : string :=
  hex_fill (N.of_nat draw + 161) 32.

(** *** The wallet library *)

(** The wallet object is its root key. *)
Definition public_key (priv : string) : string := "02" +:+ priv.

Definition toPublicKey (hex : jsval) : Result string :=
  match hex with
  | JStr (String c rest) => Ok (public_key (String c rest))
  | _ => Err "Invalid private key"
  end.

(** Creates the database file when there is none, leaves an existing
    one as it is. *)
Definition createWalletSQLite (a : SetupWalletSQLiteArgs) (db : option string)
  : Result (SetupWallet string) * option string :=
  match setup_rootKeyHex a with
  | JStr (String c rest) =>
      (Ok {| wallet := String c rest;
             identityKey := public_key (String c rest) |},
       Some (match db with
             | Some content => content
             | None => "SQLite format 3"
             end))
  | _ => (Err "Invalid root key", db)
  end.

Fixpoint weight (s : string) : N :=
  match s with
  | EmptyString => 0
  | String c rest => N_of_ascii c + 2 * weight rest
  end.

Fixpoint weight_bytes (l : bytes) : N :=
  match l with
  | [] => 0
  | b :: rest => Byte.to_N b + 2 * weight_bytes rest
  end.

Definition weight_protocol (p : WalletProtocol) : N :=
  Z.to_N (fst p) + weight (snd p).

(** The key two parties share under a context: symmetric in their
    public keys. *)
Definition shared_tag (own other : string) (p : WalletProtocol)
    (keyID : string) : byte :=
  octet (weight own + weight other + (weight_protocol p + weight keyID)).

(** The signature of [signer] over [data] for [verifier]. *)
Definition signature_tag (signer verifier : string) (p : WalletProtocol)
    (keyID : string) (data : bytes) : byte :=
  octet (3 * weight signer + weight verifier
         + (weight_protocol p + weight keyID) + weight_bytes data).

Definition encrypt (w : string) (a : WalletEncryptArgs) : Result bytes :=
  match enc_counterparty a, enc_keyID a with
  | JStr other, JStr k =>
      Ok (shared_tag (public_key w) other (enc_protocolID a) k
          :: enc_plaintext a)
  | _, _ => Err "Invalid arguments"
  end.

Definition decrypt (w : string) (a : WalletDecryptArgs) : Result bytes :=
  match dec_counterparty a, dec_keyID a, dec_ciphertext a with
  | JStr other, JStr k, t :: body =>
      if Byte.eqb t (shared_tag (public_key w) other (dec_protocolID a) k)
      then Ok body
      else Err "Decryption failed!"
  | JStr _, JStr _, [] => Err "Decryption failed!"
  | _, _, _ => Err "Invalid arguments"
  end.

Definition createSignature (w : string) (a : CreateSignatureArgs)
  : Result bytes :=
  match sig_counterparty a, sig_keyID a with
  | JStr other, JStr k =>
      Ok [signature_tag (public_key w) other (sig_protocolID a) k (sig_data a)]
  | _, _ => Err "Invalid arguments"
  end.

(** Resolves to [{ valid }], whether or not the signature holds. *)
Definition verifySignature (w : string) (a : VerifySignatureArgs)
  : Result bool :=
  match ver_counterparty a, ver_keyID a with
  | JStr other, JStr k =>
      Ok (match ver_signature a with
          | [t] => Byte.eqb t
                     (signature_tag other (public_key w) (ver_protocolID a) k
                        (ver_data a))
          | _ => false
          end)
  | _, _ => Err "Invalid arguments"
  end.

Definition runtime : Runtime := {|
  Wallet := string;
  PrivateKey_fromHex_toPublicKey_toString := toPublicKey;
  PrivateKey_fromRandom_toHex := fromRandom_toHex;
  Utils_toArray_utf8 := list_byte_of_string;
  Utils_toUTF8 := string_of_list_byte;
  Setup_createWalletSQLite := createWalletSQLite;
  wallet_encrypt := encrypt;
  wallet_createSignature := createSignature;
  wallet_verifySignature := verifySignature;
  wallet_decrypt := decrypt;
  wallet_destroy := fun _ => Ok tt;
  crypto_randomBytes_hex := randomBytes_hex;
  JSON_parse := parse;
  JSON_stringify := fun v indent => stringify indent 0 v;
  Buffer_toString_base64 := base64_encode;
  Buffer_from_base64 := from_base64 |}.

(** A freshly started process on a given disk. *)
Definition boot (d : gmap string string) : World runtime :=
  {| disk := d; stdout := []; stderr := []; draws := 0; calls := [];
     fs_ops := [] |}.

End Mock.

(** * Properties *)

(** ** Vocabulary of the statements *)

(** A process that has just started: nothing printed, nothing called
    yet, on disk [d], with [seed] random draws made on the machine so
    far. *)
Definition start {R : Runtime} (d : gmap string string) (seed : nat)
  : World R :=
  {| disk := d; stdout := []; stderr := []; draws := seed; calls := [];
     fs_ops := [] |}.

(** The world with more lines on [stdout] / one more line on [stderr] /
    more calls on record, and nothing else changed. *)
Definition say {R : Runtime} (lines : list (list jsval)) (w : World R)
  : World R :=
  {| disk := disk w; stdout := stdout w ++ lines; stderr := stderr w;
     draws := draws w; calls := calls w; fs_ops := fs_ops w |}.

Definition complain {R : Runtime} (line : list jsval) (w : World R)
  : World R :=
  {| disk := disk w; stdout := stdout w; stderr := stderr w ++ [line];
     draws := draws w; calls := calls w; fs_ops := fs_ops w |}.

Definition called {R : Runtime} (cs : list (Call R)) (w : World R)
  : World R :=
  {| disk := disk w; stdout := stdout w; stderr := stderr w;
     draws := draws w; calls := calls w ++ cs; fs_ops := fs_ops w |}.

Definition COMMANDS : list string :=
  ["init"; "identity"; "encrypt"; "decrypt"; "demo"].

(** The command line names one of the subcommands of the dispatcher. *)
Definition recognized (argv : list string) : Prop :=
  exists command, argv !! 2%nat = Some command /\ In command COMMANDS.

(** The lines of [printUsage]. *)
Definition USAGE : list (list jsval) :=
  [[JStr ("BRC-100 Encrypted Messaging" +:+ nl)];
   [JStr "Commands:"];
   [JStr "  init                                  Create a new wallet identity"];
   [JStr "  identity                              Show your public identity key"];
   [JStr ("  encrypt <recipient-pubkey> " +:+ dquote +:+ "message"
          +:+ dquote +:+ "   Encrypt and sign a message")];
   [JStr "  decrypt '<envelope-json>'              Verify and decrypt a message"];
   [JStr "  demo                                  Run a self-contained Alice/Bob demo"]].

Definition NOT_INITIALIZED : list jsval :=
  [JStr "No wallet found. Run 'init' first."].

Definition ENCRYPT_USAGE : list jsval :=
  [JStr ("Usage: npx ts-node messaging.ts encrypt <recipient-pubkey> "
         +:+ dquote +:+ "message" +:+ dquote +:+ " [keyID]")].

Definition DECRYPT_USAGE : list jsval :=
  [JStr "Usage: npx ts-node messaging.ts decrypt '<envelope-json>'"].

(** The commands that load the persisted identity. *)
Definition NEEDS_IDENTITY : list string := ["identity"; "encrypt"; "decrypt"].

(** Sample key stores for the runs on [Mock.runtime]. *)
Module Sample.

Definition key_text (privateKeyHex : string) : string :=
  JSON_stringify Mock.runtime
    (key_record privateKeyHex (Mock.public_key privateKeyHex)) 2.

Definition empty_disk : gmap string string := ∅.

Definition alice_disk : gmap string string :=
  <[KEY_FILE := key_text "a1"]> (<[DB_FILE := "SQLite format 3"]> ∅).

Definition bob_disk : gmap string string :=
  <[KEY_FILE := key_text "b2"]> (<[DB_FILE := "SQLite format 3"]> ∅).

(** Alice's key file on a machine whose database file is gone. *)
Definition alice_key_only : gmap string string :=
  <[KEY_FILE := key_text "a1"]> ∅.

Definition node : list string := ["node"; "messaging.ts"].

End Sample.

(** ** Frames: what a computation leaves alone *)

(** [m] takes every world to one related to it by [rel], however it
    ends. *)
Definition respects {R : Runtime} {A : Type}
    (rel : World R -> World R -> Prop) (m : M R A) : Prop :=
  forall w, rel w (snd (m w)).

(** The derivation context of a wallet call: protocol, key identifier
    and counterparty. *)
Definition context_of {R : Runtime} (c : Call R)
  : option (WalletProtocol * jsval * jsval) :=
  match c with
  | CallEncrypt _ a =>
      Some (enc_protocolID a, enc_keyID a, enc_counterparty a)
  | CallCreateSignature _ a =>
      Some (sig_protocolID a, sig_keyID a, sig_counterparty a)
  | CallVerifySignature _ a =>
      Some (ver_protocolID a, ver_keyID a, ver_counterparty a)
  | CallDecrypt _ a =>
      Some (dec_protocolID a, dec_keyID a, dec_counterparty a)
  | _ => None
  end.

(** A call that derives a key does so at security level 2 under the
    protocol name "encrypted messaging". *)
Definition messaging_call {R : Runtime} (c : Call R) : Prop :=
  forall protocol keyID counterparty,
    context_of c = Some (protocol, keyID, counterparty) ->
    protocol = (2%Z, "encrypted messaging").

(** The file operations a command may be allowed. *)
Definition database_op (op : FsOp) : Prop :=
  exists content, op = FsDatabase DB_FILE content.

Definition init_op (op : FsOp) : Prop :=
  database_op op \/ exists data, op = FsWriteFile KEY_FILE data.

(** [within Q w w']: from [w] to [w'] the file operations logged are
    new ones that satisfy [Q], the disk is the old one with exactly
    these operations applied, and the calls logged are new ones that
    derive keys under the messaging protocol only. *)
Definition within {R : Runtime} (Q : FsOp -> Prop) (w w' : World R) : Prop :=
  (exists ops, fs_ops w' = fs_ops w ++ ops /\ Forall Q ops /\
               disk w' = apply_ops ops (disk w)) /\
  (exists cs, calls w' = calls w ++ cs /\ Forall messaging_call cs).

(** The operations a run added to the log it started with. *)
Definition new_ops {R : Runtime} (w w' : World R) : list FsOp :=
  drop (length (fs_ops w)) (fs_ops w').

Definition new_calls {R : Runtime} (w w' : World R) : list (Call R) :=
  drop (length (calls w)) (calls w').

Definition new_stdout {R : Runtime} (w w' : World R) : list (list jsval) :=
  drop (length (stdout w)) (stdout w').

(** The text [saveKey] writes for a key pair. *)
Definition key_file_text (R : Runtime) (privateKeyHex identityKey : string)
  : string :=
  JSON_stringify R (key_record privateKeyHex identityKey) 2.


(** How the result of an external call settles. *)
Definition outcome {A : Type} (r : Result A) : Res A :=
  match r with
  | Ok a => Ret a
  | Err e => Throw e
  end.

(** The world after one more random draw / after [fs.writeFileSync] /
    after the wallet library has left [content] in its database file. *)
Definition drawn {R : Runtime} (w : World R) : World R :=
  {| disk := disk w; stdout := stdout w; stderr := stderr w;
     draws := S (draws w); calls := calls w; fs_ops := fs_ops w |}.

Definition written {R : Runtime} (path data : string) (w : World R)
  : World R :=
  {| disk := <[path := data]> (disk w); stdout := stdout w;
     stderr := stderr w; draws := draws w; calls := calls w;
     fs_ops := fs_ops w ++ [FsWriteFile path data] |}.

Definition opened {R : Runtime} (path : string) (content : option string)
    (w : World R) : World R :=
  {| disk := apply_op (FsDatabase path content) (disk w);
     stdout := stdout w; stderr := stderr w; draws := draws w;
     calls := calls w;
     fs_ops := fs_ops w ++ [FsDatabase path content] |}.


Module Crash.


End Crash.

(** ** The key store *)

(** The key file holds a JSON object with the given fields. *)
Definition stored_identity (R : Runtime) (d : gmap string string)
    (fields : list (string * jsval)) : Prop :=
  exists text, d !! KEY_FILE = Some text /\ JSON_parse R text = Ok (JObj fields).

(** [loadKey] finds no identity: no key file, or one whose content is a
    falsy JSON value. *)
Definition no_identity {R : Runtime} (w : World R) : Prop :=
  exists stored, loadKey R w = (Ret stored, w) /\ truthy stored = false.

(** The lines [runInit] prints on its two branches. *)
Definition ALREADY_EXISTS (shown : jsval) : list (list jsval) :=
  [[JStr "Wallet already exists."];
   [JStr "Identity key:"; shown];
   [];
   [JStr "Share this key with the person you want to message."]].

Definition CREATED (identityKey : string) : list (list jsval) :=
  [[JStr "Wallet created."];
   [JStr "Identity key:"; JStr identityKey];
   [];
   [JStr "Share this key with the person you want to message."]].

(** The argument object [createWallet] builds. *)
Definition setup_args (identityKey : string) (rootKeyHex : jsval)
  : SetupWalletSQLiteArgs :=
  {| setup_env :=
       {| env_chain := "test";
          env_identityKey := identityKey;
          env_identityKey2 := identityKey;
          env_taalApiKey := "testnet_nokey";
          env_devKeys := [(identityKey, rootKeyHex)];
          env_mySQLConnection := EmptyString |};
     setup_rootKeyHex := rootKeyHex;
     setup_filePath := DB_FILE;
     setup_databaseName := "messaging_wallet" |}.

(** ** Envelopes *)

(** The argument objects [runEncrypt] passes to [wallet.encrypt] and
    [wallet.createSignature]. *)
Definition encrypt_args (R : Runtime) (argv : list string)
  : WalletEncryptArgs :=
  {| enc_plaintext := Utils_toArray_utf8 R (string_of (argv_at argv 4));
     enc_protocolID := MESSAGING_PROTOCOL;
     enc_keyID := keyID_of argv;
     enc_counterparty := argv_at argv 3 |}.

Definition sign_args (argv : list string) (ciphertext : bytes)
  : CreateSignatureArgs :=
  {| sig_data := ciphertext;
     sig_protocolID := MESSAGING_PROTOCOL;
     sig_keyID := keyID_of argv;
     sig_counterparty := argv_at argv 3 |}.

(** The argument objects [runDecrypt] passes to [wallet.verifySignature]
    and [wallet.decrypt] for an envelope with the given fields. *)
Definition verify_args (fields : list (string * jsval))
    (ciphertext signature : bytes) : VerifySignatureArgs :=
  {| ver_data := ciphertext;
     ver_signature := signature;
     ver_protocolID := MESSAGING_PROTOCOL;
     ver_keyID := assoc "keyID" fields;
     ver_counterparty := assoc "sender" fields;
     ver_forSelf := false |}.

Definition decrypt_args (fields : list (string * jsval)) (ciphertext : bytes)
  : WalletDecryptArgs :=
  {| dec_ciphertext := ciphertext;
     dec_protocolID := MESSAGING_PROTOCOL;
     dec_keyID := assoc "keyID" fields;
     dec_counterparty := assoc "sender" fields |}.

(** The four fields of an envelope, all strings. *)
Definition envelope_fields (R : Runtime) (sender keyID : string)
    (ciphertext signature : bytes) : list (string * jsval) :=
  [("sender", JStr sender);
   ("keyID", JStr keyID);
   ("ciphertext", JStr (Buffer_toString_base64 R ciphertext));
   ("signature", JStr (Buffer_toString_base64 R signature))].

(** The line [runEncrypt] prints for an envelope. *)
Definition envelope_line (R : Runtime) (sender keyID : string)
    (ciphertext signature : bytes) : list jsval :=
  [JStr (JSON_stringify R
           (JObj (envelope_fields R sender keyID ciphertext signature)) 0)].

(** The lines [runDecrypt] prints. *)
Definition SIGNATURE_VALID (valid : bool) : list jsval :=
  [JStr "Signature valid:"; JBool valid].

Definition RECEIVED (sender : jsval) (message : string) : list (list jsval) :=
  [[JStr "From:"; sender]; [JStr "Message:"; JStr message]].

(** A command line for [decrypt]. *)
Definition decrypt_argv (envelopeJson : string) : list string :=
  ["node"; "messaging.ts"; "decrypt"; envelopeJson].

Module Hello.

(** Alice, on [Sample.alice_disk], encrypts "hello" for Bob under the
    default key identifier. *)
Definition argv : list string := Sample.node ++ ["encrypt"; "02b2"; "hello"].

Definition alice : SetupWallet (Wallet Mock.runtime) :=
  {| wallet := "a1"; identityKey := "02a1" |}.

Definition bob : SetupWallet (Wallet Mock.runtime) :=
  {| wallet := "b2"; identityKey := "02b2" |}.

Definition ciphertext : bytes :=
  Eval vm_compute in
    match Mock.encrypt "a1" (encrypt_args Mock.runtime argv) with
    | Ok octets => octets
    | Err _ => []
    end.

Definition signature : bytes :=
  Eval vm_compute in
    match Mock.createSignature "a1" (sign_args argv ciphertext) with
    | Ok octets => octets
    | Err _ => []
    end.

(** The envelope text Alice's run prints. *)
Definition envelope : string :=
  Eval vm_compute in
    JSON_stringify Mock.runtime
      (JObj (envelope_fields Mock.runtime "02a1" "default"
               ciphertext signature)) 0.

(** The same envelope with a signature that is not Alice's. *)
Definition forged_fields : list (string * jsval) :=
  [("sender", JStr "02a1"); ("keyID", JStr "default");
   ("ciphertext", JStr (Buffer_toString_base64 Mock.runtime ciphertext));
   ("signature", JStr "AA==")].

Definition forged : string :=
  Eval vm_compute in JSON_stringify Mock.runtime (JObj forged_fields) 0.

(** The octets of the forged signature, base64 [AA==]. *)
Definition forged_signature : bytes := [x00].

(** Bob's machine before he runs [decrypt]. *)
Definition bob_start : World Mock.runtime := start Sample.bob_disk 0.

(** Bob's world once his wallet is loaded. *)
Definition bob_loaded : World Mock.runtime :=
  opened DB_FILE (Some "SQLite format 3")
    (called [CallToPublicKey (JStr "b2");
             CallCreateWallet (setup_args "02b2" (JStr "b2"))] bob_start).

End Hello.

(** ** The wallet library's contract *)

(** A setup that [Setup.createWalletSQLite] has returned: a valid
    identity. *)
Definition is_setup (R : Runtime) (s : SetupWallet (Wallet R)) : Prop :=
  exists a db db', Setup_createWalletSQLite R a db = (Ok s, db').

(** What the specification asks of the external wallet library.  On
    valid input its operations return: freshly drawn keys have a public
    key, a root key with a public key gets a wallet, a wallet encrypts
    and signs for the identity key of any wallet, and closes.  And two
    wallets that name each other's identity key as counterparty, under
    the same protocol and key identifier, agree: what one encrypts the
    other decrypts to the same octets, and what one signs the other
    verifies. *)
Record WalletContract (R : Runtime) : Prop := {
  fresh_key_valid : forall draw,
    exists identityKey,
      PrivateKey_fromHex_toPublicKey_toString R
        (JStr (PrivateKey_fromRandom_toHex R draw)) = Ok identityKey;
  setup_returns : forall a db identityKey,
    PrivateKey_fromHex_toPublicKey_toString R (setup_rootKeyHex a)
      = Ok identityKey ->
    exists s db', Setup_createWalletSQLite R a db = (Ok s, db');
  encrypt_returns : forall a b plaintext protocol keyID,
    is_setup R a -> is_setup R b ->
    exists ciphertext,
      wallet_encrypt R (wallet a)
        {| enc_plaintext := plaintext; enc_protocolID := protocol;
           enc_keyID := JStr keyID;
           enc_counterparty := JStr (identityKey b) |} = Ok ciphertext;
  sign_returns : forall a b data protocol keyID,
    is_setup R a -> is_setup R b ->
    exists signature,
      wallet_createSignature R (wallet a)
        {| sig_data := data; sig_protocolID := protocol;
           sig_keyID := JStr keyID;
           sig_counterparty := JStr (identityKey b) |} = Ok signature;
  destroy_returns : forall a, is_setup R a -> wallet_destroy R (wallet a) = Ok tt;
  decrypt_encrypt : forall a b plaintext protocol keyID ciphertext,
    is_setup R a -> is_setup R b ->
    wallet_encrypt R (wallet a)
      {| enc_plaintext := plaintext; enc_protocolID := protocol;
         enc_keyID := keyID;
         enc_counterparty := JStr (identityKey b) |} = Ok ciphertext ->
    wallet_decrypt R (wallet b)
      {| dec_ciphertext := ciphertext; dec_protocolID := protocol;
         dec_keyID := keyID;
         dec_counterparty := JStr (identityKey a) |} = Ok plaintext;
  verify_sign : forall a b data protocol keyID signature,
    is_setup R a -> is_setup R b ->
    wallet_createSignature R (wallet a)
      {| sig_data := data; sig_protocolID := protocol;
         sig_keyID := keyID;
         sig_counterparty := JStr (identityKey b) |} = Ok signature ->
    wallet_verifySignature R (wallet b)
      {| ver_data := data; ver_signature := signature;
         ver_protocolID := protocol; ver_keyID := keyID;
         ver_counterparty := JStr (identityKey a);
         ver_forSelf := false |} = Ok true }.


(** ** The demo *)

Definition DEMO_ARGV : list string := ["node"; "messaging.ts"; "demo"].

Definition ROUND_TRIP_OK (matched : bool) : list jsval :=
  [JStr "Round-trip OK:"; JBool matched].


(** ** Further vocabulary *)

(** The names [runDecrypt] reads off an envelope. *)
Definition ENVELOPE_NAMES : list string :=
  ["ciphertext"; "signature"; "keyID"; "sender"].

(** The discipline of [stderr] and exit codes: a piece of the program
    either leaves [stderr] alone and, if it exits, exits with 0 or 1;
    or it adds one line to [stderr] and exits with 1. *)
Definition tidy_outcome {R : Runtime} {A : Type} (w : World R) (r : Res A)
    (w' : World R) : Prop :=
  (stderr w' = stderr w /\
   forall code, r = Exit code -> code = 0%Z \/ code = 1%Z) \/
  (r = Exit 1 /\ exists line, stderr w' = stderr w ++ [line]).

Definition tidy {R : Runtime} {A : Type} (m : M R A) : Prop :=
  forall w, tidy_outcome w (fst (m w)) (snd (m w)).

(** Damaged key stores for the runs on [Mock.runtime]. *)
Module Broken.

(** Not JSON at all. *)
Definition garbage_disk : gmap string string :=
  <[KEY_FILE := "not json"]> ∅.

(** The JSON value [null]. *)
Definition null_disk : gmap string string :=
  <[KEY_FILE := "null"]> ∅.



End Broken.

Module Annotated.

(** Alice's envelope with its fields in another order and two fields
    the program does not know. *)
Definition fields : list (string * jsval) :=
  [("note", JStr "sent on a Monday");
   ("signature", JStr (Buffer_toString_base64 Mock.runtime Hello.signature));
   ("ciphertext", JStr (Buffer_toString_base64 Mock.runtime Hello.ciphertext));
   ("version", JNum 3);
   ("sender", JStr "02a1");
   ("keyID", JStr "default")].

Definition envelope : string :=
  Eval vm_compute in JSON_stringify Mock.runtime (JObj fields) 0.

End Annotated.

(** ** Proof support *)

(** Unfolds the commands and the monad down to matches on the results
    of the external calls. *)
Ltac unfold_program :=
  unfold main, catch, runInit, runIdentity, runEncrypt, runDecrypt, runDemo,
    printUsage, loadWallet, createWallet, loadKey, saveKey,
    encrypt, createSignature, verifySignature, decrypt, destroy,
    createWalletSQLite, PrivateKey_toPublicKey, PrivateKey_fromRandom,
    crypto_randomBytes_toString_hex, get_prop,
    fs_existsSync, fs_readFileSync, fs_writeFileSync,
    console_log, console_error, process_exit, record_call,
    settle, throw, bind, ret in *.

Lemma dispatch_not_recognized (argv : list string) (command : string) :
  ~ recognized argv -> In command COMMANDS ->
  bool_decide (argv !! 2%nat = Some command) = false.
Proof.
  intros Hnot Hin. apply bool_decide_eq_false. intros Heq.
  apply Hnot. exists command. split; assumption.
Qed.

Lemma dispatch_command (argv : list string) (command other : string) :
  argv !! 2%nat = Some command -> command <> other ->
  bool_decide (argv !! 2%nat = Some other) = false.
Proof.
  intros Hcmd Hne. apply bool_decide_eq_false. congruence.
Qed.

Lemma dispatch_hit (argv : list string) (command : string) :
  argv !! 2%nat = Some command ->
  bool_decide (argv !! 2%nat = Some command) = true.
Proof. intros Hcmd. apply bool_decide_eq_true. assumption. Qed.

Section Dispatcher.

Variable R : Runtime.

Lemma main_init argv : argv !! 2%nat = Some "init" ->
  main R argv = catch R (runInit R).
Proof. intros H. unfold main. rewrite (dispatch_hit _ _ H). reflexivity. Qed.

Lemma main_identity argv : argv !! 2%nat = Some "identity" ->
  main R argv = catch R (runIdentity R).
Proof.
  intros H. unfold main.
  rewrite (dispatch_command _ _ "init" H) by discriminate.
  rewrite (dispatch_hit _ _ H). reflexivity.
Qed.

Lemma main_encrypt argv : argv !! 2%nat = Some "encrypt" ->
  main R argv = catch R (runEncrypt R argv).
Proof.
  intros H. unfold main.
  rewrite (dispatch_command _ _ "init" H) by discriminate.
  rewrite (dispatch_command _ _ "identity" H) by discriminate.
  rewrite (dispatch_hit _ _ H). reflexivity.
Qed.

Lemma main_decrypt argv : argv !! 2%nat = Some "decrypt" ->
  main R argv = catch R (runDecrypt R argv).
Proof.
  intros H. unfold main.
  rewrite (dispatch_command _ _ "init" H) by discriminate.
  rewrite (dispatch_command _ _ "identity" H) by discriminate.
  rewrite (dispatch_command _ _ "encrypt" H) by discriminate.
  rewrite (dispatch_hit _ _ H). reflexivity.
Qed.

Lemma main_demo argv : argv !! 2%nat = Some "demo" ->
  main R argv = catch R (runDemo R).
Proof.
  intros H. unfold main.
  rewrite (dispatch_command _ _ "init" H) by discriminate.
  rewrite (dispatch_command _ _ "identity" H) by discriminate.
  rewrite (dispatch_command _ _ "encrypt" H) by discriminate.
  rewrite (dispatch_command _ _ "decrypt" H) by discriminate.
  rewrite (dispatch_hit _ _ H). reflexivity.
Qed.

Lemma main_unknown argv (w : World R) : ~ recognized argv ->
  main R argv w = (Exit 0, say USAGE w).
Proof.
  intros Hnot. unfold main.
  rewrite !(dispatch_not_recognized argv) by (assumption || (simpl; tauto)).
  unfold printUsage, console_log, process_exit, bind, say. simpl.
  rewrite <- !app_assoc. reflexivity.
Qed.

(** C10.  Without a subcommand, or with one the dispatcher does not
    know, the program prints the usage text and ends with
    [process.exit(0)]: the world it leaves is the one it found with the
    usage lines added to [stdout], so no file is touched and no key or
    wallet call is made.  Consequently a run that ends with status 1
    was given one of the five subcommands. *)
Theorem unknown_command_prints_usage (argv : list string) (w : World R) :
  (~ recognized argv ->
   main R argv w = (Exit 0, say USAGE w) /\
   exit_code (fst (main R argv w)) = 0%Z /\
   disk (snd (main R argv w)) = disk w /\
   fs_ops (snd (main R argv w)) = fs_ops w) /\
  (exit_code (fst (main R argv w)) = 1%Z -> recognized argv).
Proof.
  split.
  - intros Hnot. rewrite (main_unknown _ _ Hnot). simpl. tauto.
  - intros Hexit.
    destruct (argv !! 2%nat) as [command|] eqn:Hcmd.
    + destruct (decide (In command COMMANDS)) as [Hin|Hout].
      * exists command. split; assumption.
      * exfalso. rewrite main_unknown in Hexit; [discriminate|].
        intros (c & Hc & Hin). rewrite Hcmd in Hc. congruence.
    + exfalso. rewrite main_unknown in Hexit; [discriminate|].
      intros (c & Hc & _). rewrite Hcmd in Hc. discriminate.
Qed.

End Dispatcher.

Lemma unknown_command_witness :
  main Mock.runtime (Sample.node ++ ["send"; "02b2"; "hello"])
    (start Sample.alice_disk 0)
  = (Exit 0, say USAGE (start Sample.alice_disk 0)) /\
  recognized (Sample.node ++ ["identity"]).
Proof.
  split.
  - apply (unknown_command_prints_usage Mock.runtime
             (Sample.node ++ ["send"; "02b2"; "hello"])).
    intros (c & Hc & Hin). simpl in Hc. injection Hc as <-.
    simpl in Hin. intuition discriminate.
  - apply (unknown_command_prints_usage Mock.runtime
             (Sample.node ++ ["identity"]) (start Sample.empty_disk 0)).
    vm_compute. reflexivity.
Defined.

(** ** Loading the key file *)

Section KeyStore.

Variable R : Runtime.

Lemma loadKey_absent (w : World R) :
  disk w !! KEY_FILE = None -> loadKey R w = (Ret JNull, w).
Proof.
  intros Hnone. unfold loadKey, fs_existsSync, bind. rewrite Hnone.
  reflexivity.
Qed.

Lemma loadKey_present (w : World R) (text : string) :
  disk w !! KEY_FILE = Some text ->
  loadKey R w = match JSON_parse R text with
                | Ok stored => (Ret stored, w)
                | Err e => (Throw e, w)
                end.
Proof.
  intros Hsome. unfold loadKey, fs_existsSync, fs_readFileSync, bind.
  rewrite Hsome. simpl. rewrite Hsome. unfold settle, ret, throw.
  destruct (JSON_parse R text); reflexivity.
Qed.

(** [loadKey] only reads. *)
Lemma loadKey_reads (w : World R) : snd (loadKey R w) = w.
Proof.
  destruct (disk w !! KEY_FILE) as [text|] eqn:Hfile.
  - rewrite (loadKey_present _ _ Hfile).
    destruct (JSON_parse R text); reflexivity.
  - rewrite (loadKey_absent _ Hfile). reflexivity.
Qed.

Lemma loadWallet_absent (w : World R) :
  disk w !! KEY_FILE = None ->
  loadWallet R w = (Exit 1, complain NOT_INITIALIZED w).
Proof.
  intros Hnone. unfold loadWallet, bind. rewrite (loadKey_absent _ Hnone).
  reflexivity.
Qed.

Lemma runIdentity_absent (w : World R) :
  disk w !! KEY_FILE = None ->
  runIdentity R w = (Exit 1, complain NOT_INITIALIZED w).
Proof.
  intros Hnone. unfold runIdentity, bind. rewrite (loadKey_absent _ Hnone).
  reflexivity.
Qed.

Lemma runEncrypt_usage (argv : list string) (w : World R) :
  truthy (argv_at argv 3) = false \/ truthy (argv_at argv 4) = false ->
  runEncrypt R argv w = (Exit 1, complain ENCRYPT_USAGE w).
Proof.
  intros Hmissing. unfold runEncrypt.
  replace (negb (truthy (argv_at argv 3)) || negb (truthy (argv_at argv 4)))
    with true; [reflexivity|].
  destruct Hmissing as [-> | ->]; simpl; [reflexivity|].
  symmetry. apply orb_true_r.
Qed.

Lemma runEncrypt_given (argv : list string) :
  truthy (argv_at argv 3) = true -> truthy (argv_at argv 4) = true ->
  runEncrypt R argv =
  bind R (loadWallet R) (fun setup =>
    bind R (encrypt R (wallet setup)
              {| enc_plaintext :=
                   Utils_toArray_utf8 R (string_of (argv_at argv 4));
                 enc_protocolID := MESSAGING_PROTOCOL;
                 enc_keyID := keyID_of argv;
                 enc_counterparty := argv_at argv 3 |})
      (fun ciphertext =>
    bind R (createSignature R (wallet setup)
              {| sig_data := ciphertext;
                 sig_protocolID := MESSAGING_PROTOCOL;
                 sig_keyID := keyID_of argv;
                 sig_counterparty := argv_at argv 3 |})
      (fun signature =>
    bind R (console_log R
              [JStr (JSON_stringify R
                       (envelope_of R (identityKey setup) (keyID_of argv)
                          ciphertext signature) 0)])
      (fun _ => destroy R (wallet setup))))).
Proof.
  intros H3 H4. unfold runEncrypt. rewrite H3, H4. reflexivity.
Qed.

Lemma runDecrypt_usage (argv : list string) (w : World R) :
  truthy (argv_at argv 3) = false ->
  runDecrypt R argv w = (Exit 1, complain DECRYPT_USAGE w).
Proof. intros Hmissing. unfold runDecrypt. rewrite Hmissing. reflexivity. Qed.

(** What the [.catch] handler makes of a run. *)
Lemma catch_exit (run : M R unit) (w w' : World R) (code : Z) :
  run w = (Exit code, w') -> catch R run w = (Exit code, w').
Proof. intros Hrun. unfold catch. rewrite Hrun. reflexivity. Qed.

Lemma catch_ret (run : M R unit) (w w' : World R) :
  run w = (Ret tt, w') -> catch R run w = (Ret tt, w').
Proof. intros Hrun. unfold catch. rewrite Hrun. reflexivity. Qed.

Lemma catch_throw (run : M R unit) (w w' : World R) (e : string) :
  run w = (Throw e, w') ->
  catch R run w = (Exit 1, complain [JStr "Error:"; JStr e] w').
Proof. intros Hrun. unfold catch. rewrite Hrun. reflexivity. Qed.

(** C8.  [encrypt] with a zero-length message is a usage error: the
    usage line goes to [stderr], the process exits with status 1, and
    nothing else happens; in particular no envelope is printed and no
    wallet call is made. *)
Theorem empty_message_rejected (argv : list string) (w : World R) :
  argv !! 2%nat = Some "encrypt" ->
  argv !! 4%nat = Some EmptyString ->
  main R argv w = (Exit 1, complain ENCRYPT_USAGE w) /\
  exit_code (fst (main R argv w)) = 1%Z /\
  stdout (snd (main R argv w)) = stdout w /\
  calls (snd (main R argv w)) = calls w.
Proof.
  intros Hcmd Hmsg.
  assert (Hrun : main R argv w = (Exit 1, complain ENCRYPT_USAGE w)).
  { rewrite (main_encrypt _ _ Hcmd). apply catch_exit.
    apply runEncrypt_usage. right. unfold argv_at. rewrite Hmsg.
    reflexivity. }
  rewrite Hrun. simpl. tauto.
Qed.

(** C9.  With no key file, loading the identity ends the process with
    status 1 and the "run init first" message; so does each of
    [identity], [encrypt] and [decrypt], whatever its arguments, without
    a single key or wallet call, without output on [stdout] and without
    touching a file. *)
Theorem not_initialized_exits_1 (argv : list string) (command : string)
    (w : World R) :
  disk w !! KEY_FILE = None ->
  argv !! 2%nat = Some command ->
  In command NEEDS_IDENTITY ->
  loadWallet R w = (Exit 1, complain NOT_INITIALIZED w) /\
  exit_code (fst (main R argv w)) = 1%Z /\
  calls (snd (main R argv w)) = calls w /\
  stdout (snd (main R argv w)) = stdout w /\
  disk (snd (main R argv w)) = disk w /\
  fs_ops (snd (main R argv w)) = fs_ops w.
Proof.
  intros Hnone Hcmd Hin. split; [apply loadWallet_absent; assumption|].
  assert (Hrun : exists line code,
             main R argv w = (Exit code, complain line w) /\ code = 1%Z).
  { simpl in Hin. destruct Hin as [<- | [<- | [<- | []]]].
    - exists NOT_INITIALIZED, 1%Z. split; [|reflexivity].
      rewrite (main_identity _ _ Hcmd). apply catch_exit.
      apply runIdentity_absent. assumption.
    - rewrite (main_encrypt _ _ Hcmd).
      destruct (truthy (argv_at argv 3)) eqn:H3;
        [destruct (truthy (argv_at argv 4)) eqn:H4|].
      + exists NOT_INITIALIZED, 1%Z. split; [|reflexivity].
        apply catch_exit. rewrite (runEncrypt_given _ H3 H4).
        unfold bind. rewrite (loadWallet_absent _ Hnone). reflexivity.
      + exists ENCRYPT_USAGE, 1%Z. split; [|reflexivity].
        apply catch_exit. apply runEncrypt_usage. right. assumption.
      + exists ENCRYPT_USAGE, 1%Z. split; [|reflexivity].
        apply catch_exit. apply runEncrypt_usage. left. assumption.
    - rewrite (main_decrypt _ _ Hcmd).
      destruct (truthy (argv_at argv 3)) eqn:H3.
      + destruct (JSON_parse R (string_of (argv_at argv 3))) as [envelope|e]
          eqn:Hparse.
        * exists NOT_INITIALIZED, 1%Z. split; [|reflexivity].
          apply catch_exit. unfold runDecrypt. rewrite H3. cbn [negb].
          unfold bind at 1. rewrite Hparse. cbn [settle ret].
          unfold bind at 1. rewrite (loadWallet_absent _ Hnone). reflexivity.
        * exists [JStr "Error:"; JStr e], 1%Z. split; [|reflexivity].
          apply catch_throw. unfold runDecrypt. rewrite H3. cbn [negb].
          unfold bind at 1. rewrite Hparse. reflexivity.
      + exists DECRYPT_USAGE, 1%Z. split; [|reflexivity].
        apply catch_exit. apply runDecrypt_usage. assumption. }
  destruct Hrun as (line & code & -> & ->). simpl. tauto.
Qed.

End KeyStore.

Lemma empty_message_witness :
  main Mock.runtime (Sample.node ++ ["encrypt"; "02b2"; EmptyString])
    (start Sample.alice_disk 0)
  = (Exit 1, complain ENCRYPT_USAGE (start Sample.alice_disk 0)).
Proof.
  apply (empty_message_rejected Mock.runtime
           (Sample.node ++ ["encrypt"; "02b2"; EmptyString])
           (start Sample.alice_disk 0)); reflexivity.
Defined.

Lemma not_initialized_witness :
  exit_code
    (fst (main Mock.runtime (Sample.node ++ ["encrypt"; "02b2"; "hello"])
            (start Sample.empty_disk 0))) = 1%Z.
Proof.
  apply (not_initialized_exits_1 Mock.runtime
           (Sample.node ++ ["encrypt"; "02b2"; "hello"]) "encrypt"
           (start Sample.empty_disk 0)).
  - reflexivity.
  - reflexivity.
  - simpl. tauto.
Defined.

(** ** Frame rules *)

Section Frames.

Variable R : Runtime.
Variable rel : World R -> World R -> Prop.
Hypothesis rel_refl : forall w, rel w w.
Hypothesis rel_trans : forall a b c, rel a b -> rel b c -> rel a c.

Lemma respects_ret {A} (a : A) : respects rel (ret R a).
Proof. intros w. apply rel_refl. Qed.

Lemma respects_throw {A} (e : string) : respects rel (@throw R A e).
Proof. intros w. apply rel_refl. Qed.

Lemma respects_exit {A} (code : Z) : respects rel (@process_exit R A code).
Proof. intros w. apply rel_refl. Qed.

Lemma respects_settle {A} (r : Result A) : respects rel (settle R r).
Proof. destruct r; [apply respects_ret | apply respects_throw]. Qed.

Lemma respects_bind {A B} (m : M R A) (k : A -> M R B) :
  respects rel m -> (forall a, respects rel (k a)) ->
  respects rel (bind R m k).
Proof.
  intros Hm Hk w. unfold bind. specialize (Hm w).
  destruct (m w) as [[a | code | e] w1]; simpl in *; try assumption.
  apply (rel_trans _ w1); [assumption | apply Hk].
Qed.

Lemma respects_exists : respects rel (fs_existsSync R KEY_FILE).
Proof. intros w. apply rel_refl. Qed.

Lemma respects_read : respects rel (fs_readFileSync R KEY_FILE).
Proof.
  intros w. unfold fs_readFileSync. destruct (disk w !! KEY_FILE);
    apply rel_refl.
Qed.

Lemma respects_get_prop (v : jsval) (name : string) :
  respects rel (get_prop R v name).
Proof.
  unfold get_prop. destruct v; (apply respects_ret || apply respects_throw).
Qed.

Lemma respects_loadKey : respects rel (loadKey R).
Proof. intros w. rewrite loadKey_reads. apply rel_refl. Qed.

(** The remaining primitives change the world; a relation that allows
    their steps is respected by the whole program. *)
Hypothesis rel_log : forall args, respects rel (console_log R args).
Hypothesis rel_error : forall args, respects rel (console_error R args).

Lemma respects_catch (run : M R unit) :
  respects rel run -> respects rel (catch R run).
Proof.
  intros Hrun w. unfold catch. specialize (Hrun w).
  destruct (run w) as [[[] | code | e] w1]; simpl in *; try assumption.
  apply (rel_trans _ w1); [assumption|].
  apply (respects_bind (console_error R [JStr "Error:"; JStr e])
           (fun _ => @process_exit R unit 1)).
  - apply rel_error.
  - intros _. apply respects_exit.
Qed.

Lemma respects_printUsage : respects rel (printUsage R).
Proof.
  unfold printUsage.
  repeat (apply respects_bind; [apply rel_log | intros _]).
  apply rel_log.
Qed.

End Frames.

Section Within.

Variable R : Runtime.
Variable Q : FsOp -> Prop.

Lemma within_refl (w : World R) : within Q w w.
Proof.
  split.
  - exists []. rewrite app_nil_r. repeat split. constructor.
  - exists []. rewrite app_nil_r. split; [reflexivity | constructor].
Qed.

Lemma apply_ops_app (ops ops' : list FsOp) (d : gmap string string) :
  apply_ops (ops ++ ops') d = apply_ops ops' (apply_ops ops d).
Proof. unfold apply_ops. apply fold_left_app. Qed.

Lemma within_trans (a b c : World R) :
  within Q a b -> within Q b c -> within Q a c.
Proof.
  intros [(ops1 & Hops1 & HQ1 & Hd1) (cs1 & Hcs1 & HP1)]
         [(ops2 & Hops2 & HQ2 & Hd2) (cs2 & Hcs2 & HP2)].
  split.
  - exists (ops1 ++ ops2). rewrite Hops2, Hops1, app_assoc.
    repeat split.
    + apply Forall_app. split; assumption.
    + rewrite Hd2, Hd1. symmetry. apply apply_ops_app.
  - exists (cs1 ++ cs2). rewrite Hcs2, Hcs1, app_assoc.
    split; [reflexivity | apply Forall_app; split; assumption].
Qed.

Lemma within_bind {A B} (m : M R A) (k : A -> M R B) :
  respects (within Q) m -> (forall a, respects (within Q) (k a)) ->
  respects (within Q) (bind R m k).
Proof. apply respects_bind. apply within_trans. Qed.

Lemma within_settle {A} (r : Result A) : respects (within Q) (settle R r).
Proof. apply respects_settle. apply within_refl. Qed.

(** A step that only prints, only draws, or only records a call. *)
Lemma within_call (w w' : World R) (cs : list (Call R)) :
  fs_ops w' = fs_ops w -> disk w' = disk w -> calls w' = calls w ++ cs ->
  Forall messaging_call cs -> within Q w w'.
Proof.
  intros Hops Hdisk Hcalls HP. split.
  - exists []. rewrite app_nil_r. repeat split; try assumption. constructor.
  - exists cs. split; assumption.
Qed.

Lemma within_quiet (w w' : World R) :
  fs_ops w' = fs_ops w -> disk w' = disk w -> calls w' = calls w ->
  within Q w w'.
Proof.
  intros Hops Hdisk Hcalls. apply (within_call w w' []); try assumption.
  - rewrite app_nil_r. assumption.
  - constructor.
Qed.

Lemma within_log args : respects (within Q) (console_log R args).
Proof. intros w. apply within_quiet; reflexivity. Qed.

Lemma within_error args : respects (within Q) (console_error R args).
Proof. intros w. apply within_quiet; reflexivity. Qed.

Lemma within_record (c : Call R) :
  messaging_call c -> respects (within Q) (record_call R c).
Proof.
  intros Hc w. apply (within_call _ _ [c]); try reflexivity.
  constructor; [assumption | constructor].
Qed.

Lemma no_context (c : Call R) : context_of c = None -> messaging_call c.
Proof. intros Hnone p k cp Hsome. congruence. Qed.

Lemma within_randomBytes n :
  respects (within Q) (crypto_randomBytes_toString_hex R n).
Proof.
  unfold crypto_randomBytes_toString_hex.
  apply within_bind; [|intros _].
  - apply within_record, no_context. reflexivity.
  - intros w. apply within_quiet; reflexivity.
Qed.

Lemma within_fromRandom : respects (within Q) (PrivateKey_fromRandom R).
Proof.
  unfold PrivateKey_fromRandom.
  apply within_bind; [|intros _].
  - apply within_record, no_context. reflexivity.
  - intros w. apply within_quiet; reflexivity.
Qed.

Lemma within_toPublicKey hex :
  respects (within Q) (PrivateKey_toPublicKey R hex).
Proof.
  unfold PrivateKey_toPublicKey.
  apply within_bind; [|intros _].
  - apply within_record, no_context. reflexivity.
  - apply within_settle.
Qed.

Lemma within_destroy wl : respects (within Q) (destroy R wl).
Proof.
  unfold destroy.
  apply within_bind; [|intros _].
  - apply within_record, no_context. reflexivity.
  - apply within_settle.
Qed.

Lemma within_encrypt wl a :
  enc_protocolID a = MESSAGING_PROTOCOL ->
  respects (within Q) (encrypt R wl a).
Proof.
  intros Hp. unfold encrypt.
  apply within_bind; [|intros _].
  - apply within_record. intros p k cp [= <- _ _]. exact Hp.
  - apply within_settle.
Qed.

Lemma within_createSignature wl a :
  sig_protocolID a = MESSAGING_PROTOCOL ->
  respects (within Q) (createSignature R wl a).
Proof.
  intros Hp. unfold createSignature.
  apply within_bind; [|intros _].
  - apply within_record. intros p k cp [= <- _ _]. exact Hp.
  - apply within_settle.
Qed.

Lemma within_verifySignature wl a :
  ver_protocolID a = MESSAGING_PROTOCOL ->
  respects (within Q) (verifySignature R wl a).
Proof.
  intros Hp. unfold verifySignature.
  apply within_bind; [|intros _].
  - apply within_record. intros p k cp [= <- _ _]. exact Hp.
  - apply within_settle.
Qed.

Lemma within_decrypt wl a :
  dec_protocolID a = MESSAGING_PROTOCOL ->
  respects (within Q) (decrypt R wl a).
Proof.
  intros Hp. unfold decrypt.
  apply within_bind; [|intros _].
  - apply within_record. intros p k cp [= <- _ _]. exact Hp.
  - apply within_settle.
Qed.

(** The wallet library on its database file. *)
Lemma within_createWalletSQLite a :
  (forall content, Q (FsDatabase (setup_filePath a) content)) ->
  respects (within Q) (createWalletSQLite R a).
Proof.
  intros HQ. unfold createWalletSQLite.
  apply within_bind; [|intros _].
  - apply within_record, no_context. reflexivity.
  - intros w.
    destruct (Setup_createWalletSQLite R a (disk w !! setup_filePath a))
      as [r db] eqn:Hlib.
    apply (within_trans _
             {| disk := match db with
                        | Some content => <[setup_filePath a := content]> (disk w)
                        | None => delete (setup_filePath a) (disk w)
                        end;
                stdout := stdout w; stderr := stderr w; draws := draws w;
                calls := calls w;
                fs_ops := fs_ops w ++ [FsDatabase (setup_filePath a) db] |}).
    + split.
      * exists [FsDatabase (setup_filePath a) db]. simpl.
        split; [reflexivity|]. split; [|reflexivity].
        constructor; [apply HQ | constructor].
      * exists []. simpl. rewrite app_nil_r. split; [reflexivity|constructor].
    + apply within_settle.
Qed.

Lemma within_writeFileSync path data :
  Q (FsWriteFile path data) ->
  respects (within Q) (fs_writeFileSync R path data).
Proof.
  intros HQ w. split.
  - exists [FsWriteFile path data]. simpl. repeat split.
    constructor; [assumption | constructor].
  - exists []. simpl. rewrite app_nil_r. split; [reflexivity | constructor].
Qed.

Lemma within_ret {A} (a : A) : respects (within Q) (ret R a).
Proof. apply respects_ret. apply within_refl. Qed.

Lemma within_exit {A} (code : Z) :
  respects (within Q) (@process_exit R A code).
Proof. apply respects_exit. apply within_refl. Qed.

Lemma within_get_prop v name : respects (within Q) (get_prop R v name).
Proof. apply respects_get_prop. apply within_refl. Qed.

Lemma within_loadKey : respects (within Q) (loadKey R).
Proof. apply respects_loadKey. apply within_refl. Qed.

Lemma within_catch run :
  respects (within Q) run -> respects (within Q) (catch R run).
Proof.
  apply respects_catch.
  - apply within_refl.
  - apply within_trans.
  - apply within_error.
Qed.

Lemma within_printUsage : respects (within Q) (printUsage R).
Proof.
  apply respects_printUsage; [apply within_trans | apply within_log].
Qed.

End Within.

(** Walks a command, discharging each step with the lemma of its
    primitive. *)
Ltac within_walk :=
  repeat match goal with
    | |- respects _ (bind _ _ _) => apply within_bind; [|intros ?]
    | |- respects _ (ret _ _) => apply within_ret
    | |- respects _ (process_exit _ _) => apply within_exit
    | |- respects _ (settle _ _) => apply within_settle
    | |- respects _ (get_prop _ _ _) => apply within_get_prop
    | |- respects _ (loadKey _) => apply within_loadKey
    | |- respects _ (console_log _ _) => apply within_log
    | |- respects _ (console_error _ _) => apply within_error
    | |- respects _ (PrivateKey_toPublicKey _ _) => apply within_toPublicKey
    | |- respects _ (PrivateKey_fromRandom _) => apply within_fromRandom
    | |- respects _ (crypto_randomBytes_toString_hex _ _) =>
        apply within_randomBytes
    | |- respects _ (destroy _ _) => apply within_destroy
    | |- respects _ (encrypt _ _ _) => apply within_encrypt; reflexivity
    | |- respects _ (createSignature _ _ _) =>
        apply within_createSignature; reflexivity
    | |- respects _ (verifySignature _ _ _) =>
        apply within_verifySignature; reflexivity
    | |- respects _ (decrypt _ _ _) => apply within_decrypt; reflexivity
    | |- respects _ (if ?b then _ else _) => destruct b
    end.

Section Commands.

Variable R : Runtime.
Variable Q : FsOp -> Prop.
Hypothesis Q_database : forall content, Q (FsDatabase DB_FILE content).

Lemma within_createWallet rootKeyHex :
  respects (within Q) (createWallet R rootKeyHex).
Proof.
  unfold createWallet. within_walk.
  apply within_createWalletSQLite. exact Q_database.
Qed.

Lemma within_loadWallet : respects (within Q) (loadWallet R).
Proof.
  unfold loadWallet. within_walk. apply within_createWallet.
Qed.

Lemma within_runIdentity : respects (within Q) (runIdentity R).
Proof. unfold runIdentity. within_walk. Qed.

Lemma within_runEncrypt argv : respects (within Q) (runEncrypt R argv).
Proof.
  unfold runEncrypt. cbv zeta. within_walk. apply within_loadWallet.
Qed.

Lemma within_runDecrypt argv : respects (within Q) (runDecrypt R argv).
Proof.
  unfold runDecrypt. cbv zeta. within_walk. apply within_loadWallet.
Qed.

Lemma within_runDemo : respects (within Q) (runDemo R).
Proof.
  unfold runDemo. cbv zeta. within_walk; apply within_createWallet.
Qed.

Hypothesis Q_key_file : forall data, Q (FsWriteFile KEY_FILE data).

Lemma within_runInit : respects (within Q) (runInit R).
Proof.
  unfold runInit, saveKey. within_walk.
  - apply within_createWallet.
  - apply within_writeFileSync. apply Q_key_file.
Qed.

Lemma within_main argv : respects (within Q) (main R argv).
Proof.
  unfold main. cbv zeta.
  repeat match goal with
         | |- respects _ (if ?b then _ else _) => destruct b
         end;
    try apply within_catch.
  - apply within_runInit.
  - apply within_runIdentity.
  - apply within_runEncrypt.
  - apply within_runDecrypt.
  - apply within_runDemo.
  - apply within_bind; [apply within_printUsage | intros _; apply within_exit].
Qed.

End Commands.

(** ** What the commands do to the files *)

Lemma KEY_FILE_not_DB_FILE : KEY_FILE <> DB_FILE.
Proof. discriminate. Qed.

Lemma apply_ops_database (ops : list FsOp) (d : gmap string string)
    (path : string) :
  Forall database_op ops -> path <> DB_FILE ->
  apply_ops ops d !! path = d !! path.
Proof.
  intros Hops Hpath. revert d.
  induction Hops as [|op ops [content ->] _ IH]; intros d; [reflexivity|].
  change (apply_ops (FsDatabase DB_FILE content :: ops) d)
    with (apply_ops ops (apply_op (FsDatabase DB_FILE content) d)).
  rewrite IH. destruct content; simpl.
  - apply lookup_insert_ne. congruence.
  - apply lookup_delete_ne. congruence.
Qed.

Lemma database_op_init_op (op : FsOp) : database_op op -> init_op op.
Proof. intros H. left. exact H. Qed.

Section Files.

Variable R : Runtime.

(** C5 (as the code has it).  Building an envelope never writes the
    key file, nor any file other than the wallet database: every path
    but [DB_FILE] holds after [runEncrypt] what it held before, and the
    file operations of the run are those of the wallet library on its
    database.  The database file itself is handed to
    [Setup.createWalletSQLite] and is not covered. *)
Theorem encrypt_leaves_all_but_database (argv : list string) (w : World R) :
  (forall path, path <> DB_FILE ->
     disk (snd (runEncrypt R argv w)) !! path = disk w !! path) /\
  disk (snd (runEncrypt R argv w)) !! KEY_FILE = disk w !! KEY_FILE /\
  exists ops, fs_ops (snd (runEncrypt R argv w)) = fs_ops w ++ ops /\
              Forall database_op ops.
Proof.
  destruct (within_runEncrypt R database_op
              (fun content => ex_intro _ content eq_refl) argv w)
    as [(ops & Hops & Hdb & Hdisk) _].
  assert (Hframe : forall path, path <> DB_FILE ->
            disk (snd (runEncrypt R argv w)) !! path = disk w !! path).
  { intros path Hpath. rewrite Hdisk.
    apply apply_ops_database; assumption. }
  split; [exact Hframe|]. split.
  - apply Hframe. exact KEY_FILE_not_DB_FILE.
  - exists ops. split; assumption.
Qed.

End Files.

(** C5 (as stated) fails: on a machine that holds Alice's key file but
    no database file, [encrypt] leaves a database file behind. *)
Lemma encrypt_creates_database :
  let w := start Sample.alice_key_only 0 in
  let w' := snd (main Mock.runtime
                   (Sample.node ++ ["encrypt"; "02b2"; "hello"]) w) in
  disk w !! DB_FILE = None /\
  disk w' !! DB_FILE = Some "SQLite format 3" /\
  disk w' <> disk w.
Proof.
  cbv zeta. split; [reflexivity|]. split; [vm_compute; reflexivity|].
  intros Heq. apply (f_equal (fun d => d !! DB_FILE)) in Heq.
  vm_compute in Heq. discriminate.
Qed.

(** ** Running the program step by step *)

Section Steps.

Variable R : Runtime.

Lemma bind_run {A B} (m : M R A) (k : A -> M R B) (w w' : World R)
    (r : Res A) :
  m w = (r, w') ->
  bind R m k w = match r with
                 | Ret a => k a w'
                 | Exit code => (Exit code, w')
                 | Throw e => (Throw e, w')
                 end.
Proof. intros Hm. unfold bind. rewrite Hm. destruct r; reflexivity. Qed.

Lemma settle_run {A} (r : Result A) (w : World R) :
  settle R r w = (outcome r, w).
Proof. destruct r; reflexivity. Qed.

Lemma console_log_run args (w : World R) :
  console_log R args w = (Ret tt, say [args] w).
Proof. reflexivity. Qed.

Lemma console_error_run args (w : World R) :
  console_error R args w = (Ret tt, complain args w).
Proof. reflexivity. Qed.

Lemma randomBytes_run n (w : World R) :
  crypto_randomBytes_toString_hex R n w
  = (Ret (crypto_randomBytes_hex R n (draws w)),
     drawn (called [CallRandomBytes n] w)).
Proof. reflexivity. Qed.

Lemma fromRandom_run (w : World R) :
  PrivateKey_fromRandom R w
  = (Ret (PrivateKey_fromRandom_toHex R (draws w)),
     drawn (called [CallFromRandom] w)).
Proof. reflexivity. Qed.

Lemma toPublicKey_run hex (w : World R) :
  PrivateKey_toPublicKey R hex w
  = (outcome (PrivateKey_fromHex_toPublicKey_toString R hex),
     called [CallToPublicKey hex] w).
Proof.
  unfold PrivateKey_toPublicKey, bind, record_call.
  rewrite settle_run. reflexivity.
Qed.

Lemma encrypt_run wl a (w : World R) :
  encrypt R wl a w
  = (outcome (wallet_encrypt R wl a), called [CallEncrypt wl a] w).
Proof. unfold encrypt, bind, record_call. rewrite settle_run. reflexivity. Qed.

Lemma createSignature_run wl a (w : World R) :
  createSignature R wl a w
  = (outcome (wallet_createSignature R wl a),
     called [CallCreateSignature wl a] w).
Proof.
  unfold createSignature, bind, record_call. rewrite settle_run. reflexivity.
Qed.

Lemma verifySignature_run wl a (w : World R) :
  verifySignature R wl a w
  = (outcome (wallet_verifySignature R wl a),
     called [CallVerifySignature wl a] w).
Proof.
  unfold verifySignature, bind, record_call. rewrite settle_run. reflexivity.
Qed.

Lemma decrypt_run wl a (w : World R) :
  decrypt R wl a w
  = (outcome (wallet_decrypt R wl a), called [CallDecrypt wl a] w).
Proof. unfold decrypt, bind, record_call. rewrite settle_run. reflexivity. Qed.

Lemma destroy_run wl (w : World R) :
  destroy R wl w = (outcome (wallet_destroy R wl), called [CallDestroy wl] w).
Proof. unfold destroy, bind, record_call. rewrite settle_run. reflexivity. Qed.

Lemma createWalletSQLite_run a (w : World R) :
  createWalletSQLite R a w
  = (outcome (fst (Setup_createWalletSQLite R a
                     (disk w !! setup_filePath a))),
     opened (setup_filePath a)
       (snd (Setup_createWalletSQLite R a (disk w !! setup_filePath a)))
       (called [CallCreateWallet a] w)).
Proof.
  unfold createWalletSQLite, bind, record_call. simpl.
  destruct (Setup_createWalletSQLite R a (disk w !! setup_filePath a))
    as [r db].
  rewrite settle_run. simpl. destruct db; reflexivity.
Qed.

Lemma saveKey_run privateKeyHex identityKey (w : World R) :
  saveKey R privateKeyHex identityKey w
  = (Ret tt, written KEY_FILE (key_file_text R privateKeyHex identityKey) w).
Proof. reflexivity. Qed.

Lemma get_prop_object fields name (w : World R) :
  get_prop R (JObj fields) name w = (Ret (assoc name fields), w).
Proof. reflexivity. Qed.

End Steps.

(** Runs the leading step of a [bind] whose first computation is a
    primitive, or one whose result is among the hypotheses. *)
Ltac run_step :=
  match goal with
  | H : ?m ?w = (_, _) |- context [bind _ ?m _ ?w] =>
      rewrite (bind_run _ m _ w _ _ H)
  | |- context [bind ?R (console_log ?R ?args) ?k ?w] =>
      rewrite (bind_run R _ k w _ _ (console_log_run R args w))
  | |- context [bind ?R (console_error ?R ?args) ?k ?w] =>
      rewrite (bind_run R _ k w _ _ (console_error_run R args w))
  | |- context [bind ?R (settle ?R ?r) ?k ?w] =>
      rewrite (bind_run R _ k w _ _ (settle_run R r w))
  | |- context [bind ?R (crypto_randomBytes_toString_hex ?R ?n) ?k ?w] =>
      rewrite (bind_run R _ k w _ _ (randomBytes_run R n w))
  | |- context [bind ?R (PrivateKey_fromRandom ?R) ?k ?w] =>
      rewrite (bind_run R _ k w _ _ (fromRandom_run R w))
  | |- context [bind ?R (PrivateKey_toPublicKey ?R ?hex) ?k ?w] =>
      rewrite (bind_run R _ k w _ _ (toPublicKey_run R hex w))
  | |- context [bind ?R (createWalletSQLite ?R ?a) ?k ?w] =>
      rewrite (bind_run R _ k w _ _ (createWalletSQLite_run R a w))
  | |- context [bind ?R (encrypt ?R ?wl ?a) ?k ?w] =>
      rewrite (bind_run R _ k w _ _ (encrypt_run R wl a w))
  | |- context [bind ?R (createSignature ?R ?wl ?a) ?k ?w] =>
      rewrite (bind_run R _ k w _ _ (createSignature_run R wl a w))
  | |- context [bind ?R (verifySignature ?R ?wl ?a) ?k ?w] =>
      rewrite (bind_run R _ k w _ _ (verifySignature_run R wl a w))
  | |- context [bind ?R (decrypt ?R ?wl ?a) ?k ?w] =>
      rewrite (bind_run R _ k w _ _ (decrypt_run R wl a w))
  | |- context [bind ?R (destroy ?R ?wl) ?k ?w] =>
      rewrite (bind_run R _ k w _ _ (destroy_run R wl w))
  | |- context [bind ?R (saveKey ?R ?p ?i) ?k ?w] =>
      rewrite (bind_run R _ k w _ _ (saveKey_run R p i w))
  | |- context [bind ?R (get_prop ?R (JObj ?fields) ?name) ?k ?w] =>
      rewrite (bind_run R _ k w _ _ (get_prop_object R fields name w))
  end.

(** ** [init] and the key file *)

Lemma database_op_intro (content : option string) :
  database_op (FsDatabase DB_FILE content).
Proof. exists content. reflexivity. Qed.

Section InitFiles.

Variable R : Runtime.





End InitFiles.

(** What a crash can leave of the key file. *)
Lemma torn_database_key_file (content : option string)
    (d d' : gmap string string) :
  torn (FsDatabase DB_FILE content) d d' -> d' !! KEY_FILE = d !! KEY_FILE.
Proof.
  intros Htorn. inversion Htorn; subst.
  - apply lookup_insert_ne. discriminate.
  - apply lookup_delete_ne. discriminate.
Qed.

Lemma apply_database_key_file (content : option string)
    (d : gmap string string) :
  apply_op (FsDatabase DB_FILE content) d !! KEY_FILE = d !! KEY_FILE.
Proof.
  destruct content; simpl.
  - apply lookup_insert_ne. discriminate.
  - apply lookup_delete_ne. discriminate.
Qed.

Lemma crash_database_ops (ops : list FsOp) (d d' : gmap string string) :
  Forall database_op ops -> crash_state ops d d' ->
  d' !! KEY_FILE = d !! KEY_FILE.
Proof.
  intros Hdb Hcrash. induction Hcrash as [ops d | op ops d d' Htorn
                                          | op ops d d' Hcrash IH].
  - reflexivity.
  - inversion Hdb as [|? ? [content ->] _]; subst.
    apply (torn_database_key_file content). assumption.
  - inversion Hdb as [|? ? [content ->] Hrest]; subst.
    rewrite (IH Hrest). apply apply_database_key_file.
Qed.



Lemma new_ops_app {R : Runtime} (w w' : World R) (ops : list FsOp) :
  fs_ops w' = fs_ops w ++ ops -> new_ops w w' = ops.
Proof. intros Hops. unfold new_ops. rewrite Hops. apply drop_app_length. Qed.

Section InitCrash.

Variable R : Runtime.


End InitCrash.






(** ** [init] twice *)

(** A run whose result is known, paired with the world it leaves. *)
Lemma run_pair {R : Runtime} {A} (m : M R A) (w : World R) (r : Res A) :
  fst (m w) = r -> m w = (r, snd (m w)).
Proof. intros <-. apply surjective_pairing. Qed.

Lemma say_say {R : Runtime} (l1 l2 : list (list jsval)) (w : World R) :
  say l2 (say l1 w) = say (l1 ++ l2) w.
Proof. unfold say. simpl. rewrite <- app_assoc. reflexivity. Qed.

Lemma new_stdout_app {R : Runtime} (w w' : World R)
    (lines : list (list jsval)) :
  stdout w' = stdout w ++ lines -> new_stdout w w' = lines.
Proof.
  intros Hout. unfold new_stdout. rewrite Hout. apply drop_app_length.
Qed.

Lemma new_calls_app {R : Runtime} (w w' : World R) (cs : list (Call R)) :
  calls w' = calls w ++ cs -> new_calls w w' = cs.
Proof.
  intros Hcalls. unfold new_calls. rewrite Hcalls. apply drop_app_length.
Qed.

Section Init.

Variable R : Runtime.

Lemma createWallet_run rootKeyHex (w : World R) :
  createWallet R rootKeyHex w =
  match PrivateKey_fromHex_toPublicKey_toString R rootKeyHex with
  | Err e => (Throw e, called [CallToPublicKey rootKeyHex] w)
  | Ok id =>
      (outcome (fst (Setup_createWalletSQLite R (setup_args id rootKeyHex)
                       (disk w !! DB_FILE))),
       opened DB_FILE
         (snd (Setup_createWalletSQLite R (setup_args id rootKeyHex)
                 (disk w !! DB_FILE)))
         (called [CallCreateWallet (setup_args id rootKeyHex)]
            (called [CallToPublicKey rootKeyHex] w)))
  end.
Proof.
  unfold createWallet. run_step.
  destruct (PrivateKey_fromHex_toPublicKey_toString R rootKeyHex) as [id|e];
    simpl; [|reflexivity].
  run_step. fold (setup_args id rootKeyHex).
  change (disk (called [CallToPublicKey rootKeyHex] w)
          !! setup_filePath (setup_args id rootKeyHex))
    with (disk w !! DB_FILE).
  change (setup_filePath (setup_args id rootKeyHex)) with DB_FILE.
  destruct (Setup_createWalletSQLite R (setup_args id rootKeyHex)
              (disk w !! DB_FILE)) as [[setup|e] db]; reflexivity.
Qed.

(** A wallet is set up without a word on [stdout]. *)
Lemma createWallet_stdout rootKeyHex (w : World R) :
  stdout (snd (createWallet R rootKeyHex w)) = stdout w.
Proof.
  rewrite createWallet_run.
  destruct (PrivateKey_fromHex_toPublicKey_toString R rootKeyHex);
    reflexivity.
Qed.

Lemma runInit_existing (w : World R) (fields : list (string * jsval)) :
  stored_identity R (disk w) fields ->
  runInit R w = (Ret tt, say (ALREADY_EXISTS (assoc "identityKey" fields)) w).
Proof.
  intros (text & Hfile & Hparse). unfold runInit.
  rewrite (bind_run R _ _ w w (Ret (JObj fields))).
  - cbn [truthy]. repeat run_step. unfold ret.
    rewrite !say_say. reflexivity.
  - rewrite (loadKey_present R w text Hfile), Hparse. reflexivity.
Qed.

Lemma no_identity_absent (w : World R) :
  disk w !! KEY_FILE = None -> no_identity w.
Proof.
  intros Hnone. exists JNull. split; [|reflexivity].
  apply loadKey_absent. assumption.
Qed.

(** A first [init] that returns has drawn the private key, derived the
    identity key from it, set up and closed a wallet, and only then
    written the key file and reported. *)
Lemma runInit_fresh (w w1 : World R) :
  no_identity w -> runInit R w = (Ret tt, w1) ->
  exists identityKey,
    PrivateKey_fromHex_toPublicKey_toString R
      (JStr (crypto_randomBytes_hex R 32 (draws w))) = Ok identityKey /\
    stdout w1 = stdout w ++ CREATED identityKey /\
    disk w1 !! KEY_FILE
      = Some (key_file_text R (crypto_randomBytes_hex R 32 (draws w))
                identityKey).
Proof.
  intros (stored & Hload & Hfalsy) Hrun. unfold runInit in Hrun.
  rewrite (bind_run R _ _ w w _ Hload), Hfalsy in Hrun.
  revert Hrun. run_step. run_step. cbn [draws called].
  set (p := crypto_randomBytes_hex R 32 (draws w)).
  destruct (PrivateKey_fromHex_toPublicKey_toString R (JStr p)) as [id|e]
    eqn:Hpub; cbn [outcome]; [|discriminate].
  match goal with
  | |- context [bind R (createWallet R ?k) _ ?w0] =>
      destruct (createWallet R k w0) as [r w4] eqn:Hsetup;
      pose proof (createWallet_stdout k w0) as Hquiet;
      rewrite Hsetup in Hquiet; simpl in Hquiet
  end.
  run_step. destruct r as [setup | code | e]; [|discriminate..].
  run_step. destruct (wallet_destroy R (wallet setup)) as [[]|e];
    cbn [outcome]; [|discriminate].
  repeat run_step. rewrite console_log_run. intros [= <-].
  exists id. split; [reflexivity|]. split.
  - simpl. rewrite Hquiet. rewrite <- !app_assoc. reflexivity.
  - simpl. apply lookup_insert_eq.
Qed.

(** C3.  [init] is idempotent.  When the key file holds an identity
    record, [init] reports the identity key found there and changes
    nothing: the world it leaves is the one it found plus four lines on
    [stdout], so the private scalar on disk is the same.  And when a
    first [init] on a store without identity returns, a second [init]
    on the disk it left (provided [JSON.parse] reads back the record
    [JSON.stringify] wrote) reports the same identity key as the first
    and again leaves the disk alone. *)
Theorem init_idempotent :
  (forall (w : World R) fields,
     stored_identity R (disk w) fields ->
     runInit R w
       = (Ret tt, say (ALREADY_EXISTS (assoc "identityKey" fields)) w) /\
     disk (snd (runInit R w)) = disk w) /\
  (forall (w w1 w2 : World R),
     no_identity w ->
     runInit R w = (Ret tt, w1) ->
     (forall identityKey,
        PrivateKey_fromHex_toPublicKey_toString R
          (JStr (crypto_randomBytes_hex R 32 (draws w))) = Ok identityKey ->
        JSON_parse R
          (key_file_text R (crypto_randomBytes_hex R 32 (draws w)) identityKey)
        = Ok (key_record (crypto_randomBytes_hex R 32 (draws w)) identityKey)) ->
     disk w2 = disk w1 ->
     exists identityKey,
       new_stdout w w1 = CREATED identityKey /\
       runInit R w2 = (Ret tt, say (ALREADY_EXISTS (JStr identityKey)) w2) /\
       disk (snd (runInit R w2)) !! KEY_FILE = disk w1 !! KEY_FILE).
Proof.
  split.
  - intros w fields Hstored. rewrite (runInit_existing w fields Hstored).
    split; reflexivity.
  - intros w w1 w2 Hnone Hrun Hjson Hdisk.
    destruct (runInit_fresh w w1 Hnone Hrun) as (id & Hpub & Hout & Hfile).
    exists id. split; [apply new_stdout_app; assumption|].
    assert (Hstored : stored_identity R (disk w2)
              [("privateKeyHex",
                JStr (crypto_randomBytes_hex R 32 (draws w)));
               ("identityKey", JStr id)]).
    { exists (key_file_text R (crypto_randomBytes_hex R 32 (draws w)) id).
      split; [rewrite Hdisk; assumption | apply Hjson; assumption]. }
    rewrite (runInit_existing w2 _ Hstored). simpl. split; [reflexivity|].
    rewrite Hdisk. reflexivity.
Qed.

End Init.

Lemma init_idempotent_witness :
  let alice : World Mock.runtime := start Sample.alice_disk 0 in
  let fresh : World Mock.runtime := start Sample.empty_disk 0 in
  let first := snd (runInit Mock.runtime fresh) in
  let again : World Mock.runtime := start (disk first) (draws first) in
  runInit Mock.runtime alice
    = (Ret tt, say (ALREADY_EXISTS (JStr "02a1")) alice) /\
  exists identityKey,
    new_stdout fresh first = CREATED identityKey /\
    runInit Mock.runtime again
      = (Ret tt, say (ALREADY_EXISTS (JStr identityKey)) again) /\
    disk (snd (runInit Mock.runtime again)) !! KEY_FILE
      = disk first !! KEY_FILE.
Proof.
  intros alice fresh first again. split.
  - apply (proj1 (init_idempotent Mock.runtime) alice
             [("privateKeyHex", JStr "a1"); ("identityKey", JStr "02a1")]).
    exists (Sample.key_text "a1"). split; vm_compute; reflexivity.
  - apply (proj2 (init_idempotent Mock.runtime) fresh first again).
    + apply no_identity_absent. reflexivity.
    + exact (run_pair (runInit Mock.runtime) fresh (Ret tt)
               ltac:(vm_compute; reflexivity)).
    + intros id Hpub. vm_compute in Hpub. injection Hpub as <-.
      vm_compute. reflexivity.
    + reflexivity.
Defined.

(** ** Building an envelope *)

Lemma new_stdout_same {R : Runtime} (w w' : World R) :
  stdout w' = stdout w -> new_stdout w w' = [].
Proof. intros Hout. unfold new_stdout. rewrite Hout. apply drop_all. Qed.

Lemma keyID_of_string (argv : list string) :
  exists keyID, keyID_of argv = JStr keyID.
Proof.
  unfold keyID_of, argv_at. destruct (argv !! 5%nat) as [s|]; simpl.
  - destruct s; simpl; eauto.
  - eauto.
Qed.

Lemma keyID_of_default (argv : list string) :
  argv !! 5%nat = None -> keyID_of argv = JStr "default".
Proof. intros Hnone. unfold keyID_of, argv_at. rewrite Hnone. reflexivity. Qed.

Section Envelope.

Variable R : Runtime.

(** Loading the wallet prints nothing on [stdout]. *)
Lemma loadWallet_stdout (w : World R) :
  stdout (snd (loadWallet R w)) = stdout w.
Proof.
  unfold loadWallet, bind. pose proof (loadKey_reads R w) as Hreads.
  destruct (loadKey R w) as [[stored | code | e] w0]; simpl in Hreads;
    subst w0; try reflexivity.
  destruct (truthy stored); simpl; [|reflexivity].
  destruct stored; simpl; try reflexivity; apply createWallet_stdout.
Qed.

Lemma runEncrypt_run (argv : list string) (w w1 : World R)
    (setup : SetupWallet (Wallet R)) :
  truthy (argv_at argv 3) = true -> truthy (argv_at argv 4) = true ->
  loadWallet R w = (Ret setup, w1) ->
  runEncrypt R argv w =
  match wallet_encrypt R (wallet setup) (encrypt_args R argv) with
  | Err e =>
      (Throw e, called [CallEncrypt (wallet setup) (encrypt_args R argv)] w1)
  | Ok ciphertext =>
      match wallet_createSignature R (wallet setup)
              (sign_args argv ciphertext) with
      | Err e =>
          (Throw e,
           called [CallCreateSignature (wallet setup)
                     (sign_args argv ciphertext)]
             (called [CallEncrypt (wallet setup) (encrypt_args R argv)] w1))
      | Ok signature =>
          (outcome (wallet_destroy R (wallet setup)),
           called [CallDestroy (wallet setup)]
             (say [[JStr (JSON_stringify R
                            (envelope_of R (identityKey setup)
                               (keyID_of argv) ciphertext signature) 0)]]
                (called [CallCreateSignature (wallet setup)
                           (sign_args argv ciphertext)]
                   (called [CallEncrypt (wallet setup)
                              (encrypt_args R argv)] w1))))
      end
  end.
Proof.
  intros H3 H4 Hload. rewrite (runEncrypt_given R argv H3 H4).
  run_step. run_step. fold (encrypt_args R argv).
  destruct (wallet_encrypt R (wallet setup) (encrypt_args R argv))
    as [ciphertext|e]; cbn [outcome]; [|reflexivity].
  run_step. fold (sign_args argv ciphertext).
  destruct (wallet_createSignature R (wallet setup)
              (sign_args argv ciphertext)) as [signature|e];
    cbn [outcome]; [|reflexivity].
  run_step. rewrite destroy_run. reflexivity.
Qed.

(** C6.  Whatever [runEncrypt] puts on [stdout] is one line, the
    JSON text of an object with exactly the four fields [sender] (the
    identity key of the wallet loaded from the key file), [keyID] (the
    key identifier handed to [wallet.encrypt]), [ciphertext] (base64 of
    the octets [wallet.encrypt] returned) and [signature] (base64 of the
    octets [wallet.createSignature] returned); and that line is printed
    whenever both arguments are given and the wallet loads, encrypts
    and signs. *)
Theorem envelope_has_four_fields (argv : list string) (w : World R) :
  (new_stdout w (snd (runEncrypt R argv w)) = [] \/
   exists setup w1 ciphertext signature keyID,
     loadWallet R w = (Ret setup, w1) /\
     enc_keyID (encrypt_args R argv) = JStr keyID /\
     wallet_encrypt R (wallet setup) (encrypt_args R argv) = Ok ciphertext /\
     wallet_createSignature R (wallet setup) (sign_args argv ciphertext)
       = Ok signature /\
     new_stdout w (snd (runEncrypt R argv w))
       = [envelope_line R (identityKey setup) keyID ciphertext signature]) /\
  (forall setup w1 ciphertext signature,
     truthy (argv_at argv 3) = true -> truthy (argv_at argv 4) = true ->
     loadWallet R w = (Ret setup, w1) ->
     wallet_encrypt R (wallet setup) (encrypt_args R argv) = Ok ciphertext ->
     wallet_createSignature R (wallet setup) (sign_args argv ciphertext)
       = Ok signature ->
     exists keyID,
       keyID_of argv = JStr keyID /\
       new_stdout w (snd (runEncrypt R argv w))
         = [envelope_line R (identityKey setup) keyID ciphertext signature]).
Proof.
  assert (Hprinted : forall setup w1 ciphertext signature,
     truthy (argv_at argv 3) = true -> truthy (argv_at argv 4) = true ->
     loadWallet R w = (Ret setup, w1) ->
     wallet_encrypt R (wallet setup) (encrypt_args R argv) = Ok ciphertext ->
     wallet_createSignature R (wallet setup) (sign_args argv ciphertext)
       = Ok signature ->
     exists keyID,
       keyID_of argv = JStr keyID /\
       new_stdout w (snd (runEncrypt R argv w))
         = [envelope_line R (identityKey setup) keyID ciphertext signature]).
  { intros setup w1 ct sg H3 H4 Hload Henc Hsig.
    destruct (keyID_of_string argv) as [k Hk]. exists k.
    split; [assumption|]. apply new_stdout_app.
    rewrite (runEncrypt_run argv w w1 setup H3 H4 Hload), Henc, Hsig.
    pose proof (loadWallet_stdout w) as Hquiet. rewrite Hload in Hquiet.
    simpl in Hquiet. simpl. rewrite Hquiet.
    unfold envelope_line, envelope_fields, envelope_of. rewrite Hk.
    reflexivity. }
  split; [|exact Hprinted].
  destruct (truthy (argv_at argv 3)) eqn:H3;
    [destruct (truthy (argv_at argv 4)) eqn:H4|].
  - pose proof (loadWallet_stdout w) as Hquiet.
    destruct (loadWallet R w) as [[setup | code | e] w1] eqn:Hload;
      simpl in Hquiet.
    + rewrite (runEncrypt_run argv w w1 setup H3 H4 Hload).
      destruct (wallet_encrypt R (wallet setup) (encrypt_args R argv))
        as [ct|e] eqn:Henc.
      * destruct (wallet_createSignature R (wallet setup) (sign_args argv ct))
          as [sg|e] eqn:Hsig.
        -- right.
           destruct (Hprinted setup w1 ct sg eq_refl eq_refl eq_refl
                       Henc Hsig) as (k & Hk & Hout).
           exists setup, w1, ct, sg, k. repeat split; try assumption.
           rewrite (runEncrypt_run argv w w1 setup H3 H4 Hload), Henc, Hsig
             in Hout. exact Hout.
        -- left. apply new_stdout_same. simpl. assumption.
      * left. apply new_stdout_same. simpl. assumption.
    + left. apply new_stdout_same.
      rewrite (runEncrypt_given R argv H3 H4). run_step. assumption.
    + left. apply new_stdout_same.
      rewrite (runEncrypt_given R argv H3 H4). run_step. assumption.
  - left. apply new_stdout_same.
    rewrite runEncrypt_usage by (right; assumption). reflexivity.
  - left. apply new_stdout_same.
    rewrite runEncrypt_usage by (left; assumption). reflexivity.
Qed.

End Envelope.

Lemma envelope_witness :
  exists keyID,
    keyID_of Hello.argv = JStr keyID /\
    new_stdout (start Sample.alice_disk 0)
      (snd (runEncrypt Mock.runtime Hello.argv (start Sample.alice_disk 0)))
    = [envelope_line Mock.runtime (identityKey Hello.alice) keyID
         Hello.ciphertext Hello.signature].
Proof.
  apply (proj2 (envelope_has_four_fields Mock.runtime Hello.argv
                  (start Sample.alice_disk 0))
           Hello.alice
           (snd (loadWallet Mock.runtime (start Sample.alice_disk 0)))).
  - reflexivity.
  - reflexivity.
  - exact (run_pair (loadWallet Mock.runtime) (start Sample.alice_disk 0)
             (Ret Hello.alice) ltac:(vm_compute; reflexivity)).
  - vm_compute. reflexivity.
  - vm_compute. reflexivity.
Defined.

(** ** Receiving an envelope *)

Section Receive.

Variable R : Runtime.

Lemma runDecrypt_run (argv : list string) (w w1 : World R)
    (setup : SetupWallet (Wallet R)) (fields : list (string * jsval))
    (ciphertext signature : bytes) :
  truthy (argv_at argv 3) = true ->
  JSON_parse R (string_of (argv_at argv 3)) = Ok (JObj fields) ->
  loadWallet R w = (Ret setup, w1) ->
  Buffer_from_base64 R (assoc "ciphertext" fields) = Ok ciphertext ->
  Buffer_from_base64 R (assoc "signature" fields) = Ok signature ->
  runDecrypt R argv w =
  match wallet_verifySignature R (wallet setup)
          (verify_args fields ciphertext signature) with
  | Err e =>
      (Throw e,
       called [CallVerifySignature (wallet setup)
                 (verify_args fields ciphertext signature)] w1)
  | Ok valid =>
      match wallet_decrypt R (wallet setup) (decrypt_args fields ciphertext)
      with
      | Err e =>
          (Throw e,
           called [CallDecrypt (wallet setup) (decrypt_args fields ciphertext)]
             (say [SIGNATURE_VALID valid]
                (called [CallVerifySignature (wallet setup)
                           (verify_args fields ciphertext signature)] w1)))
      | Ok plaintext =>
          (outcome (wallet_destroy R (wallet setup)),
           called [CallDestroy (wallet setup)]
             (say (RECEIVED (assoc "sender" fields) (Utils_toUTF8 R plaintext))
                (called [CallDecrypt (wallet setup)
                           (decrypt_args fields ciphertext)]
                   (say [SIGNATURE_VALID valid]
                      (called [CallVerifySignature (wallet setup)
                                 (verify_args fields ciphertext signature)]
                         w1)))))
      end
  end.
Proof.
  intros H3 Hparse Hload Hct Hsg. unfold runDecrypt. rewrite H3.
  cbn [negb]. run_step. rewrite Hparse. cbn [outcome].
  run_step. run_step. run_step. rewrite Hct. cbn [outcome].
  run_step. run_step. rewrite Hsg. cbn [outcome].
  run_step. run_step. run_step.
  fold (verify_args fields ciphertext signature).
  destruct (wallet_verifySignature R (wallet setup)
              (verify_args fields ciphertext signature)) as [valid|e];
    cbn [outcome]; [|reflexivity].
  run_step. run_step. fold (decrypt_args fields ciphertext).
  destruct (wallet_decrypt R (wallet setup) (decrypt_args fields ciphertext))
    as [plaintext|e]; cbn [outcome]; [|reflexivity].
  run_step. run_step. rewrite destroy_run. unfold RECEIVED.
  rewrite say_say. reflexivity.
Qed.


End Receive.



(** ** The derivation context *)

Section Context.

Variable R : Runtime.

Lemma main_calls (argv : list string) (w : World R) (c : Call R) :
  In c (new_calls w (snd (main R argv w))) -> messaging_call c.
Proof.
  intros Hin.
  destruct (within_main R init_op
              (fun content => database_op_init_op _ (database_op_intro content))
              (fun data => or_intror (ex_intro _ data eq_refl))
              argv w) as [_ (cs & Hcalls & Hall)].
  rewrite (new_calls_app _ _ _ Hcalls) in Hin.
  rewrite Forall_forall in Hall. apply Hall.
  apply list_elem_of_In. exact Hin.
Qed.

Lemma runEncrypt_calls (argv : list string) (w w1 : World R)
    (setup : SetupWallet (Wallet R)) :
  truthy (argv_at argv 3) = true -> truthy (argv_at argv 4) = true ->
  loadWallet R w = (Ret setup, w1) ->
  exists rest,
    new_calls w1 (snd (runEncrypt R argv w))
      = CallEncrypt (wallet setup) (encrypt_args R argv) :: rest /\
    forall c, In c rest ->
      (exists ciphertext,
         wallet_encrypt R (wallet setup) (encrypt_args R argv) = Ok ciphertext
         /\ c = CallCreateSignature (wallet setup) (sign_args argv ciphertext))
      \/ c = CallDestroy (wallet setup).
Proof.
  intros H3 H4 Hload. rewrite (runEncrypt_run R argv w w1 setup H3 H4 Hload).
  destruct (wallet_encrypt R (wallet setup) (encrypt_args R argv))
    as [ct|e].
  - destruct (wallet_createSignature R (wallet setup) (sign_args argv ct))
      as [sg|e].
    + exists [CallCreateSignature (wallet setup) (sign_args argv ct);
              CallDestroy (wallet setup)]. split.
      * apply new_calls_app. simpl. rewrite <- !app_assoc. reflexivity.
      * intros c [<- | [<- | []]]; [left; eauto | right; reflexivity].
    + exists [CallCreateSignature (wallet setup) (sign_args argv ct)]. split.
      * apply new_calls_app. simpl. rewrite <- !app_assoc. reflexivity.
      * intros c [<- | []]. left. eauto.
  - exists []. split; [apply new_calls_app; reflexivity | intros c []].
Qed.

Lemma runDecrypt_calls (argv : list string) (w w1 : World R)
    (setup : SetupWallet (Wallet R)) (fields : list (string * jsval))
    (ciphertext signature : bytes) :
  truthy (argv_at argv 3) = true ->
  JSON_parse R (string_of (argv_at argv 3)) = Ok (JObj fields) ->
  loadWallet R w = (Ret setup, w1) ->
  Buffer_from_base64 R (assoc "ciphertext" fields) = Ok ciphertext ->
  Buffer_from_base64 R (assoc "signature" fields) = Ok signature ->
  exists rest,
    new_calls w1 (snd (runDecrypt R argv w))
      = CallVerifySignature (wallet setup)
          (verify_args fields ciphertext signature) :: rest /\
    forall c, In c rest ->
      c = CallDecrypt (wallet setup) (decrypt_args fields ciphertext)
      \/ c = CallDestroy (wallet setup).
Proof.
  intros H3 Hparse Hload Hct Hsg.
  rewrite (runDecrypt_run R argv w w1 setup fields ciphertext signature
             H3 Hparse Hload Hct Hsg).
  destruct (wallet_verifySignature R (wallet setup)
              (verify_args fields ciphertext signature)) as [valid|e].
  - destruct (wallet_decrypt R (wallet setup) (decrypt_args fields ciphertext))
      as [pt|e].
    + exists [CallDecrypt (wallet setup) (decrypt_args fields ciphertext);
              CallDestroy (wallet setup)]. split.
      * apply new_calls_app. simpl. rewrite <- !app_assoc. reflexivity.
      * intros c [<- | [<- | []]]; [left | right]; reflexivity.
    + exists [CallDecrypt (wallet setup) (decrypt_args fields ciphertext)].
      split.
      * apply new_calls_app. simpl. rewrite <- !app_assoc. reflexivity.
      * intros c [<- | []]. left. reflexivity.
  - exists []. split; [apply new_calls_app; reflexivity | intros c []].
Qed.

(** C7.  The protocol constant is security level 2 with the name
    "encrypted messaging", and every key-deriving wallet call of every
    command carries it.  On the sending side the first wallet call is
    [encrypt] and the only other deriving call is [createSignature]
    over the very octets [encrypt] returned, under the same protocol,
    key identifier and counterparty.  On the receiving side the first
    wallet call is [verifySignature] over the decoded ciphertext and
    the only other deriving call is [decrypt] of that ciphertext, both
    under the protocol, the envelope's key identifier and the
    envelope's sender.  Without a fifth argument the key identifier is
    ["default"], in the calls and in the envelope. *)
Theorem messaging_context_everywhere :
  MESSAGING_PROTOCOL = (2%Z, "encrypted messaging") /\
  (forall argv (w : World R) c,
     In c (new_calls w (snd (main R argv w))) -> messaging_call c) /\
  (forall argv (w w1 : World R) setup,
     truthy (argv_at argv 3) = true -> truthy (argv_at argv 4) = true ->
     loadWallet R w = (Ret setup, w1) ->
     (exists rest,
        new_calls w1 (snd (runEncrypt R argv w))
          = CallEncrypt (wallet setup) (encrypt_args R argv) :: rest /\
        forall c, In c rest ->
          (exists ciphertext,
             wallet_encrypt R (wallet setup) (encrypt_args R argv)
               = Ok ciphertext /\
             c = CallCreateSignature (wallet setup)
                   (sign_args argv ciphertext))
          \/ c = CallDestroy (wallet setup)) /\
     forall ciphertext,
       sig_data (sign_args argv ciphertext) = ciphertext /\
       context_of (CallCreateSignature (wallet setup)
                     (sign_args argv ciphertext))
         = context_of (CallEncrypt (wallet setup) (encrypt_args R argv))) /\
  (forall argv (w w1 : World R) setup fields ciphertext signature,
     truthy (argv_at argv 3) = true ->
     JSON_parse R (string_of (argv_at argv 3)) = Ok (JObj fields) ->
     loadWallet R w = (Ret setup, w1) ->
     Buffer_from_base64 R (assoc "ciphertext" fields) = Ok ciphertext ->
     Buffer_from_base64 R (assoc "signature" fields) = Ok signature ->
     (exists rest,
        new_calls w1 (snd (runDecrypt R argv w))
          = CallVerifySignature (wallet setup)
              (verify_args fields ciphertext signature) :: rest /\
        forall c, In c rest ->
          c = CallDecrypt (wallet setup) (decrypt_args fields ciphertext)
          \/ c = CallDestroy (wallet setup)) /\
     ver_data (verify_args fields ciphertext signature) = ciphertext /\
     dec_ciphertext (decrypt_args fields ciphertext) = ciphertext /\
     context_of (CallVerifySignature (wallet setup)
                   (verify_args fields ciphertext signature))
       = Some (MESSAGING_PROTOCOL, assoc "keyID" fields, assoc "sender" fields)
     /\
     context_of (CallDecrypt (wallet setup) (decrypt_args fields ciphertext))
       = Some (MESSAGING_PROTOCOL, assoc "keyID" fields, assoc "sender" fields))
  /\
  (forall argv sender ciphertext signature,
     argv !! 5%nat = None ->
     enc_keyID (encrypt_args R argv) = JStr "default" /\
     sig_keyID (sign_args argv ciphertext) = JStr "default" /\
     envelope_of R sender (keyID_of argv) ciphertext signature
       = JObj (envelope_fields R sender "default" ciphertext signature)).
Proof.
  split; [reflexivity|]. split; [exact main_calls|]. split; [|split].
  - intros argv w w1 setup H3 H4 Hload. split.
    + exact (runEncrypt_calls argv w w1 setup H3 H4 Hload).
    + intros ct. split; reflexivity.
  - intros argv w w1 setup fields ct sg H3 Hparse Hload Hct Hsg. split.
    + exact (runDecrypt_calls argv w w1 setup fields ct sg
               H3 Hparse Hload Hct Hsg).
    + repeat split.
  - intros argv sender ct sg Hnone. unfold envelope_of, envelope_fields.
    cbn [enc_keyID sig_keyID encrypt_args sign_args].
    rewrite (keyID_of_default argv Hnone). repeat split.
Qed.

End Context.

Lemma messaging_context_witness :
  messaging_call
    (CallEncrypt (wallet Hello.alice) (encrypt_args Mock.runtime Hello.argv))
  /\
  (exists rest,
     new_calls
       (snd (loadWallet Mock.runtime (start Sample.alice_disk 0)))
       (snd (runEncrypt Mock.runtime Hello.argv (start Sample.alice_disk 0)))
     = CallEncrypt (wallet Hello.alice) (encrypt_args Mock.runtime Hello.argv)
       :: rest) /\
  (exists rest,
     new_calls Hello.bob_loaded
       (snd (runDecrypt Mock.runtime (decrypt_argv Hello.forged)
               Hello.bob_start))
     = CallVerifySignature (wallet Hello.bob)
         (verify_args Hello.forged_fields Hello.ciphertext
            Hello.forged_signature) :: rest) /\
  enc_keyID (encrypt_args Mock.runtime Hello.argv) = JStr "default".
Proof.
  destruct (messaging_context_everywhere Mock.runtime)
    as (_ & Hall & Hsend & Hreceive & Hdefault).
  split; [|split; [|split]].
  - apply (Hall Hello.argv (start Sample.alice_disk 0)).
    right. right. left. reflexivity.
  - destruct (Hsend Hello.argv (start Sample.alice_disk 0)
                (snd (loadWallet Mock.runtime (start Sample.alice_disk 0)))
                Hello.alice) as [(rest & Hcalls & _) _]; try reflexivity.
    exists rest. exact Hcalls.
  - destruct (Hreceive (decrypt_argv Hello.forged) Hello.bob_start
                Hello.bob_loaded Hello.bob Hello.forged_fields
                Hello.ciphertext Hello.forged_signature)
      as [(rest & Hcalls & _) _]; try reflexivity.
    exists rest. exact Hcalls.
  - apply (Hdefault Hello.argv "02a1" Hello.ciphertext Hello.signature).
    reflexivity.
Defined.

(** ** The toy wallet library honours the contract *)





(** ** Round trips *)

Lemma outcome_not_exit {A} (r : Result A) (code : Z) : outcome r <> Exit code.
Proof. destruct r; discriminate. Qed.

Section RoundTrip.

Variable R : Runtime.

Lemma createWallet_no_exit rootKeyHex (w : World R) (code : Z) :
  fst (createWallet R rootKeyHex w) <> Exit code.
Proof.
  rewrite createWallet_run.
  destruct (PrivateKey_fromHex_toPublicKey_toString R rootKeyHex);
    [apply outcome_not_exit | discriminate].
Qed.



(** With a library that honours its contract, a valid key gets a
    wallet. *)
Lemma createWallet_returns (contract : WalletContract R) rootKeyHex
    (w : World R) identityKey :
  PrivateKey_fromHex_toPublicKey_toString R rootKeyHex = Ok identityKey ->
  exists s, fst (createWallet R rootKeyHex w) = Ret s.
Proof.
  intros Hpub. rewrite createWallet_run, Hpub.
  destruct (setup_returns R contract (setup_args identityKey rootKeyHex)
              (disk w !! DB_FILE) identityKey Hpub) as (s & db' & Hlib).
  rewrite Hlib. exists s. reflexivity.
Qed.


End RoundTrip.

(** ** The demo *)

Lemma catch_stdout {R : Runtime} (run : M R unit) (w : World R) :
  stdout (snd (catch R run w)) = stdout (snd (run w)).
Proof.
  unfold catch. destruct (run w) as [[[] | code | e] w']; reflexivity.
Qed.

Lemma catch_exit_code {R : Runtime} (run : M R unit) (w : World R) :
  exit_code (fst (catch R run w)) = exit_code (fst (run w)).
Proof.
  unfold catch. destruct (run w) as [[[] | code | e] w']; reflexivity.
Qed.

Section Demo.

Variable R : Runtime.

(** Steps over a [createWallet], keeping the world it leaves abstract. *)
Ltac step_createWallet :=
  match goal with
  | |- context [bind R (createWallet R ?k) ?f ?w0] =>
      let r := fresh "r" in
      let w' := fresh "w" in
      let Hcw := fresh "Hcw" in
      let Hquiet := fresh "Hquiet" in
      let Hexit := fresh "Hexit" in
      let Hvalid := fresh "Hvalid" in
      pose proof (createWallet_stdout R k w0) as Hquiet;
      pose proof (createWallet_no_exit R k w0) as Hexit;
      pose proof (fun contract id => createWallet_returns R contract k w0 id)
        as Hvalid;
      destruct (createWallet R k w0) as [r w'] eqn:Hcw;
      simpl in Hquiet, Hexit, Hvalid;
      rewrite (bind_run R (createWallet R k) f w0 w' r Hcw);
      destruct r as [? | ? | ?];
      [ | exfalso; eapply Hexit; reflexivity | ]
  end.

Ltac step_outcome :=
  match goal with
  | |- context [outcome ?r] => destruct r eqn:?; cbn [outcome]
  end.

(** The lines a finished step sequence has put on [stdout]. *)
Ltac printed_lines Hquiet1 Hquiet2 :=
  erewrite new_stdout_app;
  [ | simpl; rewrite Hquiet2, Hquiet1; rewrite <- !app_assoc; reflexivity ].

(** However the demo ends: if it returns, "Round-trip OK: true" is on
    [stdout]; if it exits, it does so with status 1. *)
Lemma runDemo_verdict (w : World R) :
  let '(r, w') := runDemo R w in
  match r with
  | Ret _ => In (ROUND_TRIP_OK true) (new_stdout w w')
  | Exit code => code = 1%Z
  | Throw _ => True
  end.
Proof.
  unfold runDemo. cbv zeta.
  repeat run_step.
  step_createWallet; [|exact I].
  repeat run_step.
  step_createWallet; [|exact I].
  repeat run_step.
  do 6 (step_outcome; [|exact I]; repeat run_step).
  destruct (String.eqb (Utils_toUTF8 R _) DEMO_PLAINTEXT); cbn [negb];
    [|reflexivity].
  unfold ret. printed_lines Hquiet Hquiet0.
  simpl. unfold ROUND_TRIP_OK. repeat (first [left; reflexivity | right]).
Qed.


End Demo.

Section RoundTripClaim.

Variable R : Runtime.

Lemma new_stdout_catch (run : M R unit) (w : World R) :
  new_stdout w (snd (catch R run w)) = new_stdout w (snd (run w)).
Proof. unfold new_stdout. rewrite catch_stdout. reflexivity. Qed.


End RoundTripClaim.


Lemma encrypt_frame_witness :
  disk (snd (runEncrypt Mock.runtime Hello.argv
               (start Sample.alice_key_only 0))) !! KEY_FILE
  = disk (start (R := Mock.runtime) Sample.alice_key_only 0) !! KEY_FILE.
Proof.
  apply (proj1 (encrypt_leaves_all_but_database Mock.runtime Hello.argv
                  (start Sample.alice_key_only 0)) KEY_FILE).
  discriminate.
Defined.

(** * Further properties of the commands *)

(** ** [identity] and the key file *)

Section KeyFileEdges.

Variable R : Runtime.

(** X1.  With an identity record in the key file, [identity] prints the
    record's [identityKey] field, as it stands, and returns: one line on
    [stdout] and nothing else, so no key is derived, no wallet is set up
    and the database file is not opened. *)
Theorem identity_prints_stored_key (argv : list string) (w : World R)
    (fields : list (string * jsval)) :
  argv !! 2%nat = Some "identity" ->
  stored_identity R (disk w) fields ->
  main R argv w = (Ret tt, say [[assoc "identityKey" fields]] w) /\
  exit_code (fst (main R argv w)) = 0%Z /\
  calls (snd (main R argv w)) = calls w /\
  fs_ops (snd (main R argv w)) = fs_ops w.
Proof.
  intros Hcmd (text & Hfile & Hparse).
  assert (Hrun : main R argv w
                 = (Ret tt, say [[assoc "identityKey" fields]] w)).
  { rewrite (main_identity R argv Hcmd). apply catch_ret.
    unfold runIdentity.
    rewrite (bind_run R _ _ w w (Ret (JObj fields))).
    - cbn [truthy negb]. run_step. apply console_log_run.
    - rewrite (loadKey_present R w text Hfile), Hparse. reflexivity. }
  rewrite Hrun. repeat split.
Qed.

(** X2.  A key file that [JSON.parse] rejects makes [init], [identity]
    and a well-formed [encrypt] end with status 1 and the parser's
    message after "Error:" on [stderr]; the world is otherwise as it
    was, so the file is not overwritten and no wallet is touched. *)
Theorem corrupt_key_file_exits_1 (argv : list string) (w : World R)
    (text e : string) :
  disk w !! KEY_FILE = Some text ->
  JSON_parse R text = Err e ->
  argv !! 2%nat = Some "init" \/
  argv !! 2%nat = Some "identity" \/
  (argv !! 2%nat = Some "encrypt" /\
   truthy (argv_at argv 3) = true /\ truthy (argv_at argv 4) = true) ->
  main R argv w = (Exit 1, complain [JStr "Error:"; JStr e] w) /\
  disk (snd (main R argv w)) = disk w.
Proof.
  intros Hfile Hparse Hcmd.
  assert (Hload : loadKey R w = (Throw e, w)).
  { rewrite (loadKey_present R w text Hfile), Hparse. reflexivity. }
  assert (Hrun : main R argv w
                 = (Exit 1, complain [JStr "Error:"; JStr e] w)).
  { destruct Hcmd as [Hcmd | [Hcmd | (Hcmd & H3 & H4)]].
    - rewrite (main_init R argv Hcmd). apply catch_throw.
      unfold runInit. rewrite (bind_run R _ _ w w _ Hload). reflexivity.
    - rewrite (main_identity R argv Hcmd). apply catch_throw.
      unfold runIdentity. rewrite (bind_run R _ _ w w _ Hload). reflexivity.
    - rewrite (main_encrypt R argv Hcmd). apply catch_throw.
      rewrite (runEncrypt_given R argv H3 H4).
      assert (Hwallet : loadWallet R w = (Throw e, w)).
      { unfold loadWallet. rewrite (bind_run R _ _ w w _ Hload).
        reflexivity. }
      rewrite (bind_run R _ _ w w _ Hwallet). reflexivity. }
  rewrite Hrun. split; reflexivity.
Qed.

(** X3.  A key file holding a falsy JSON value ([null], [false], [0],
    the empty string) counts as no identity at all: [identity] and the
    wallet loader report "No wallet found" and exit with status 1,
    exactly as without a key file. *)
Theorem falsy_key_file_is_no_identity (w : World R) (text : string)
    (stored : jsval) :
  disk w !! KEY_FILE = Some text ->
  JSON_parse R text = Ok stored ->
  truthy stored = false ->
  no_identity w /\
  runIdentity R w = (Exit 1, complain NOT_INITIALIZED w) /\
  loadWallet R w = (Exit 1, complain NOT_INITIALIZED w).
Proof.
  intros Hfile Hparse Hfalsy.
  assert (Hload : loadKey R w = (Ret stored, w)).
  { rewrite (loadKey_present R w text Hfile), Hparse. reflexivity. }
  split; [exists stored; split; assumption|]. split.
  - unfold runIdentity. rewrite (bind_run R _ _ w w _ Hload), Hfalsy.
    reflexivity.
  - unfold loadWallet. rewrite (bind_run R _ _ w w _ Hload), Hfalsy.
    reflexivity.
Qed.


End KeyFileEdges.

Lemma identity_prints_witness :
  main Mock.runtime (Sample.node ++ ["identity"]) (start Sample.alice_disk 0)
  = (Ret tt, say [[JStr "02a1"]] (start Sample.alice_disk 0)).
Proof.
  apply (identity_prints_stored_key Mock.runtime
           (Sample.node ++ ["identity"]) (start Sample.alice_disk 0)
           [("privateKeyHex", JStr "a1"); ("identityKey", JStr "02a1")]).
  - reflexivity.
  - exists (Sample.key_text "a1"). split; reflexivity.
Defined.

Lemma corrupt_key_file_witness :
  main Mock.runtime (Sample.node ++ ["init"]) (start Broken.garbage_disk 0)
  = (Exit 1,
     complain [JStr "Error:"; JStr "Unexpected token in JSON"]
       (start Broken.garbage_disk 0)).
Proof.
  apply (corrupt_key_file_exits_1 Mock.runtime (Sample.node ++ ["init"])
           (start Broken.garbage_disk 0) "not json"
           "Unexpected token in JSON").
  - reflexivity.
  - reflexivity.
  - left. reflexivity.
Defined.

Lemma falsy_key_file_witness :
  runIdentity Mock.runtime (start Broken.null_disk 0)
  = (Exit 1, complain NOT_INITIALIZED (start Broken.null_disk 0)).
Proof.
  apply (falsy_key_file_is_no_identity Mock.runtime
           (start Broken.null_disk 0) "null" JNull); reflexivity.
Defined.


(** ** A first [init], and what later commands make of it *)

Section FirstInit.

Variable R : Runtime.


(** X6.  After a first [init] that returned, on the disk it left and
    provided [JSON.parse] reads back the record [JSON.stringify] wrote:
    [identity] prints the identity key [init] printed, and the wallet
    every later [encrypt] or [decrypt] loads is the one set up from the
    private key [init] drew. *)
Theorem init_then_identity_and_wallet (w w1 w2 : World R) :
  no_identity w ->
  runInit R w = (Ret tt, w1) ->
  (forall identityKey,
     PrivateKey_fromHex_toPublicKey_toString R
       (JStr (crypto_randomBytes_hex R 32 (draws w))) = Ok identityKey ->
     JSON_parse R
       (key_file_text R (crypto_randomBytes_hex R 32 (draws w)) identityKey)
     = Ok (key_record (crypto_randomBytes_hex R 32 (draws w)) identityKey)) ->
  disk w2 = disk w1 ->
  exists identityKey,
    new_stdout w w1 = CREATED identityKey /\
    runIdentity R w2 = (Ret tt, say [[JStr identityKey]] w2) /\
    loadWallet R w2
      = createWallet R (JStr (crypto_randomBytes_hex R 32 (draws w))) w2.
Proof.
  intros Hnone Hrun Hjson Hdisk.
  destruct (runInit_fresh R w w1 Hnone Hrun) as (id & Hpub & Hout & Hfile).
  exists id. split; [apply new_stdout_app; assumption|].
  assert (Hload : loadKey R w2
            = (Ret (key_record (crypto_randomBytes_hex R 32 (draws w)) id),
               w2)).
  { rewrite (loadKey_present R w2 _ (eq_trans (f_equal (fun d => d !! KEY_FILE)
                                                 Hdisk) Hfile)).
    rewrite (Hjson id Hpub). reflexivity. }
  split.
  - unfold runIdentity. rewrite (bind_run R _ _ w2 w2 _ Hload).
    unfold key_record. cbn [truthy negb]. run_step. apply console_log_run.
  - unfold loadWallet. rewrite (bind_run R _ _ w2 w2 _ Hload).
    unfold key_record. cbn [truthy negb]. run_step. reflexivity.
Qed.

End FirstInit.


Lemma init_then_identity_witness :
  let fresh : World Mock.runtime := start Sample.empty_disk 0 in
  let first := snd (runInit Mock.runtime fresh) in
  let later : World Mock.runtime := start (disk first) (draws first) in
  exists identityKey,
    new_stdout fresh first = CREATED identityKey /\
    runIdentity Mock.runtime later
      = (Ret tt, say [[JStr identityKey]] later) /\
    loadWallet Mock.runtime later
      = createWallet Mock.runtime
          (JStr (crypto_randomBytes_hex Mock.runtime 32 (draws fresh))) later.
Proof.
  intros fresh first later.
  apply (init_then_identity_and_wallet Mock.runtime fresh first later).
  - apply no_identity_absent. reflexivity.
  - exact (run_pair (runInit Mock.runtime) fresh (Ret tt)
             ltac:(vm_compute; reflexivity)).
  - intros id Hpub. vm_compute in Hpub. injection Hpub as <-.
    vm_compute. reflexivity.
  - reflexivity.
Defined.

(** ** Arguments *)

Section Arguments.

Variable R : Runtime.

(** X7.  [encrypt] without a recipient or without a message (absent or
    empty), and [decrypt] without an envelope (absent or empty), are
    usage errors: the command's usage line on [stderr], exit status 1,
    and nothing else; the key file is not even looked at. *)
Theorem missing_arguments_are_usage_errors (argv : list string)
    (w : World R) :
  (argv !! 2%nat = Some "encrypt" ->
   truthy (argv_at argv 3) = false \/ truthy (argv_at argv 4) = false ->
   main R argv w = (Exit 1, complain ENCRYPT_USAGE w)) /\
  (argv !! 2%nat = Some "decrypt" ->
   truthy (argv_at argv 3) = false ->
   main R argv w = (Exit 1, complain DECRYPT_USAGE w)).
Proof.
  split.
  - intros Hcmd Hmissing. rewrite (main_encrypt R argv Hcmd).
    apply catch_exit. apply runEncrypt_usage. exact Hmissing.
  - intros Hcmd Hmissing. rewrite (main_decrypt R argv Hcmd).
    apply catch_exit. apply runDecrypt_usage. exact Hmissing.
Qed.

(** X8.  An envelope argument that [JSON.parse] rejects ends [decrypt]
    with status 1 and the parser's message after "Error:" on [stderr]
    before anything else happens: the key file is not read and no
    wallet is set up, so the outcome is the same with or without an
    identity. *)
Theorem malformed_envelope_rejected_first (argv : list string)
    (w : World R) (e : string) :
  argv !! 2%nat = Some "decrypt" ->
  truthy (argv_at argv 3) = true ->
  JSON_parse R (string_of (argv_at argv 3)) = Err e ->
  main R argv w = (Exit 1, complain [JStr "Error:"; JStr e] w) /\
  calls (snd (main R argv w)) = calls w /\
  fs_ops (snd (main R argv w)) = fs_ops w.
Proof.
  intros Hcmd H3 Hparse.
  assert (Hrun : main R argv w
                 = (Exit 1, complain [JStr "Error:"; JStr e] w)).
  { rewrite (main_decrypt R argv Hcmd). apply catch_throw.
    unfold runDecrypt. rewrite H3. cbn [negb]. run_step. rewrite Hparse.
    reflexivity. }
  rewrite Hrun. repeat split.
Qed.

(** X9.  The key identifier of an envelope is never empty: a non-empty
    sixth argument is taken as it is, an absent or empty one is
    replaced by ["default"]; and that string is the key identifier both
    wallet calls of [encrypt] are given. *)
Theorem key_identifier_never_empty (argv : list string) :
  exists keyID,
    keyID_of argv = JStr keyID /\
    keyID <> EmptyString /\
    enc_keyID (encrypt_args R argv) = JStr keyID /\
    (forall ciphertext, sig_keyID (sign_args argv ciphertext) = JStr keyID) /\
    (forall given, argv !! 5%nat = Some given -> given <> EmptyString ->
                   keyID = given) /\
    (argv !! 5%nat = None \/ argv !! 5%nat = Some EmptyString ->
     keyID = "default").
Proof.
  unfold encrypt_args, sign_args, keyID_of, argv_at. simpl.
  destruct (argv !! 5%nat) as [[|c s]|]; simpl.
  - exists "default". repeat split; try discriminate.
    intros given [= <-] Hne. contradiction.
  - exists (String c s). repeat split; try discriminate.
    + intros given [= <-] _. reflexivity.
    + intros [Hnone | Hempty]; discriminate.
  - exists "default". repeat split; try discriminate.
Qed.

End Arguments.

Lemma missing_arguments_witness :
  main Mock.runtime (Sample.node ++ ["encrypt"; "02b2"])
    (start Sample.alice_disk 0)
  = (Exit 1, complain ENCRYPT_USAGE (start Sample.alice_disk 0)) /\
  main Mock.runtime (Sample.node ++ ["decrypt"]) (start Sample.bob_disk 0)
  = (Exit 1, complain DECRYPT_USAGE (start Sample.bob_disk 0)).
Proof.
  split.
  - apply (proj1 (missing_arguments_are_usage_errors Mock.runtime
                    (Sample.node ++ ["encrypt"; "02b2"])
                    (start Sample.alice_disk 0))).
    + reflexivity.
    + right. reflexivity.
  - apply (proj2 (missing_arguments_are_usage_errors Mock.runtime
                    (Sample.node ++ ["decrypt"]) (start Sample.bob_disk 0)));
      reflexivity.
Defined.

Lemma malformed_envelope_witness :
  main Mock.runtime (decrypt_argv "{bad") (start Sample.empty_disk 0)
  = (Exit 1,
     complain [JStr "Error:"; JStr "Unexpected token in JSON"]
       (start Sample.empty_disk 0)).
Proof.
  apply (malformed_envelope_rejected_first Mock.runtime (decrypt_argv "{bad")
           (start Sample.empty_disk 0) "Unexpected token in JSON");
    reflexivity.
Defined.

Lemma key_identifier_witness :
  exists keyID,
    keyID_of (Sample.node ++ ["encrypt"; "02b2"; "hello"; "chat-7"])
      = JStr keyID /\ keyID = "chat-7".
Proof.
  destruct (key_identifier_never_empty Mock.runtime
              (Sample.node ++ ["encrypt"; "02b2"; "hello"; "chat-7"]))
    as (k & Hk & _ & _ & _ & Hgiven & _).
  exists k. split; [exact Hk|].
  apply (Hgiven "chat-7"); [reflexivity | discriminate].
Defined.

(** ** The wallet's life and the receiver's output *)

Section WalletLife.

Variable R : Runtime.


(** X11.  What [decrypt] reports once the signature check has returned
    a flag, whatever the flag: if decryption and closing return, it
    ends with status 0 having printed the flag, the envelope's sender
    as claimed and the UTF-8 reading of the plaintext; if decryption
    throws (a ciphertext the cipher rejects), it ends with status 1
    having printed the flag only, with the cipher's message after
    "Error:" on [stderr]. *)
Theorem decrypt_reports_flag_then_plaintext (argv : list string)
    (w w1 : World R) (setup : SetupWallet (Wallet R))
    (fields : list (string * jsval)) (ciphertext signature : bytes)
    (valid : bool) :
  argv !! 2%nat = Some "decrypt" ->
  truthy (argv_at argv 3) = true ->
  JSON_parse R (string_of (argv_at argv 3)) = Ok (JObj fields) ->
  loadWallet R w = (Ret setup, w1) ->
  Buffer_from_base64 R (assoc "ciphertext" fields) = Ok ciphertext ->
  Buffer_from_base64 R (assoc "signature" fields) = Ok signature ->
  wallet_verifySignature R (wallet setup)
    (verify_args fields ciphertext signature) = Ok valid ->
  (forall plaintext,
     wallet_decrypt R (wallet setup) (decrypt_args fields ciphertext)
       = Ok plaintext ->
     wallet_destroy R (wallet setup) = Ok tt ->
     fst (main R argv w) = Ret tt /\
     new_stdout w1 (snd (main R argv w))
       = SIGNATURE_VALID valid
         :: RECEIVED (assoc "sender" fields) (Utils_toUTF8 R plaintext) /\
     stderr (snd (main R argv w)) = stderr w1) /\
  (forall e,
     wallet_decrypt R (wallet setup) (decrypt_args fields ciphertext)
       = Err e ->
     fst (main R argv w) = Exit 1 /\
     new_stdout w1 (snd (main R argv w)) = [SIGNATURE_VALID valid] /\
     stderr (snd (main R argv w)) = stderr w1 ++ [[JStr "Error:"; JStr e]]).
Proof.
  intros Hcmd H3 Hparse Hload Hct Hsg Hver.
  pose proof (runDecrypt_run R argv w w1 setup fields ciphertext signature
                H3 Hparse Hload Hct Hsg) as Hrun.
  rewrite Hver in Hrun. rewrite (main_decrypt R argv Hcmd). split.
  - intros pt Hdec Hclose. rewrite Hdec, Hclose in Hrun.
    rewrite (catch_ret R _ _ _ Hrun). repeat split.
    apply new_stdout_app. simpl. rewrite <- !app_assoc. reflexivity.
  - intros e Hdec. rewrite Hdec in Hrun.
    rewrite (catch_throw R _ _ _ _ Hrun). repeat split.
    apply new_stdout_app. reflexivity.
Qed.

(** X12.  [decrypt] reads an envelope by the four names [ciphertext],
    [signature], [keyID] and [sender] and nothing else: two envelope
    objects that agree on these four (whatever other fields they
    carry, in whatever order) give the same run, result and world
    alike. *)
Theorem unknown_envelope_fields_ignored (argv argv' : list string)
    (w : World R) (fields fields' : list (string * jsval)) :
  truthy (argv_at argv 3) = true ->
  truthy (argv_at argv' 3) = true ->
  JSON_parse R (string_of (argv_at argv 3)) = Ok (JObj fields) ->
  JSON_parse R (string_of (argv_at argv' 3)) = Ok (JObj fields') ->
  (forall name, In name ENVELOPE_NAMES ->
                assoc name fields = assoc name fields') ->
  runDecrypt R argv w = runDecrypt R argv' w.
Proof.
  intros H3 H3' Hparse Hparse' Hsame. unfold runDecrypt.
  rewrite H3, H3'. cbn [negb].
  rewrite (bind_run R _ _ w w _ (settle_run R _ w)), Hparse.
  rewrite (bind_run R (settle R (JSON_parse R (string_of (argv_at argv' 3))))
             _ w w _ (settle_run R _ w)), Hparse'.
  cbn [outcome get_prop].
  rewrite (Hsame "ciphertext"), (Hsame "signature"), (Hsame "keyID"),
    (Hsame "sender") by (simpl; tauto).
  reflexivity.
Qed.

End WalletLife.


Lemma decrypt_reports_witness :
  fst (main Mock.runtime (decrypt_argv Hello.envelope) Hello.bob_start)
    = Ret tt /\
  new_stdout Hello.bob_loaded
    (snd (main Mock.runtime (decrypt_argv Hello.envelope) Hello.bob_start))
  = SIGNATURE_VALID true
    :: RECEIVED
         (assoc "sender"
            (envelope_fields Mock.runtime "02a1" "default"
               Hello.ciphertext Hello.signature))
         (Utils_toUTF8 Mock.runtime (list_byte_of_string "hello")) /\
  stderr (snd (main Mock.runtime (decrypt_argv Hello.envelope)
                 Hello.bob_start))
  = stderr Hello.bob_loaded.
Proof.
  destruct (decrypt_reports_flag_then_plaintext Mock.runtime
              (decrypt_argv Hello.envelope) Hello.bob_start Hello.bob_loaded
              Hello.bob
              (envelope_fields Mock.runtime "02a1" "default"
                 Hello.ciphertext Hello.signature)
              Hello.ciphertext Hello.signature true)
    as [Hok _]; try reflexivity.
  apply (Hok (list_byte_of_string "hello")); reflexivity.
Defined.

Lemma unknown_fields_witness :
  runDecrypt Mock.runtime (decrypt_argv Hello.envelope) Hello.bob_start
  = runDecrypt Mock.runtime (decrypt_argv Annotated.envelope) Hello.bob_start.
Proof.
  apply (unknown_envelope_fields_ignored Mock.runtime
           (decrypt_argv Hello.envelope) (decrypt_argv Annotated.envelope)
           Hello.bob_start
           (envelope_fields Mock.runtime "02a1" "default"
              Hello.ciphertext Hello.signature)
           Annotated.fields); try reflexivity.
  intros name [<- | [<- | [<- | [<- | []]]]]; reflexivity.
Defined.

(** ** Who may change the identity *)

Section OnlyInit.

Variable R : Runtime.

Lemma within_main_not_init (argv : list string) :
  argv !! 2%nat <> Some "init" ->
  respects (within database_op) (main R argv).
Proof.
  intros Hnot. unfold main. cbv zeta.
  rewrite (bool_decide_eq_false_2 _ Hnot).
  repeat match goal with
         | |- respects _ (if ?b then _ else _) => destruct b
         end;
    try apply within_catch.
  - apply within_runIdentity.
  - apply within_runEncrypt. exact database_op_intro.
  - apply within_runDecrypt. exact database_op_intro.
  - apply within_runDemo. exact database_op_intro.
  - apply within_bind; [apply within_printUsage | intros _; apply within_exit].
Qed.

(** X13.  No command but [init] can change the identity: after
    [identity], [encrypt], [decrypt], [demo] or the usage text, with
    any arguments and however the run ends, every file other than the
    wallet database holds what it held before, the key file included;
    and should the process die at any point of such a run, the key file
    is still what it was. *)
Theorem only_init_changes_key_file (argv : list string) (w : World R) :
  argv !! 2%nat <> Some "init" ->
  (forall path, path <> DB_FILE ->
     disk (snd (main R argv w)) !! path = disk w !! path) /\
  disk (snd (main R argv w)) !! KEY_FILE = disk w !! KEY_FILE /\
  (forall d',
     crash_state (new_ops w (snd (main R argv w))) (disk w) d' ->
     d' !! KEY_FILE = disk w !! KEY_FILE).
Proof.
  intros Hnot.
  destruct (within_main_not_init argv Hnot w)
    as [(ops & Hops & Hdb & Hdisk) _].
  assert (Hframe : forall path, path <> DB_FILE ->
            disk (snd (main R argv w)) !! path = disk w !! path).
  { intros path Hpath. rewrite Hdisk.
    apply apply_ops_database; assumption. }
  split; [exact Hframe|]. split.
  - apply Hframe. exact KEY_FILE_not_DB_FILE.
  - intros d' Hcrash. rewrite (new_ops_app _ _ _ Hops) in Hcrash.
    apply (crash_database_ops ops); assumption.
Qed.

End OnlyInit.

Lemma only_init_witness :
  disk (snd (main Mock.runtime DEMO_ARGV (start Sample.alice_disk 0)))
    !! KEY_FILE
  = disk (start (R := Mock.runtime) Sample.alice_disk 0) !! KEY_FILE.
Proof.
  apply (proj1 (proj2 (only_init_changes_key_file Mock.runtime DEMO_ARGV
                         (start Sample.alice_disk 0)
                         ltac:(discriminate)))).
Defined.

(** ** Exit codes and [stderr] *)

Section Tidy.

Variable R : Runtime.

Lemma tidy_quiet {A} (m : M R A) :
  (forall w, stderr (snd (m w)) = stderr w) ->
  (forall w code, fst (m w) <> Exit code) ->
  tidy m.
Proof.
  intros Hquiet Hexit w. left. split; [apply Hquiet|].
  intros code Hcode. exfalso. exact (Hexit w code Hcode).
Qed.

Lemma tidy_bind {A B} (m : M R A) (k : A -> M R B) :
  tidy m -> (forall a, tidy (k a)) -> tidy (bind R m k).
Proof.
  intros Hm Hk w. specialize (Hm w). unfold bind.
  destruct (m w) as [[a | code | e] w1]; simpl in *.
  - destruct Hm as [[Hsame _] | [Hexit _]]; [|discriminate].
    specialize (Hk a w1).
    destruct Hk as [[Hsame' Hcodes] | [Hexit (line & Hline)]].
    + left. split; [congruence | exact Hcodes].
    + right. split; [exact Hexit|]. exists line. congruence.
  - destruct Hm as [[Hsame Hcodes] | [Hexit Hline]].
    + left. split; [exact Hsame|]. intros c [= <-].
      apply Hcodes. reflexivity.
    + right. injection Hexit as ->. split; [reflexivity | exact Hline].
  - destruct Hm as [[Hsame _] | [Hexit _]]; [|discriminate].
    left. split; [exact Hsame | discriminate].
Qed.

Lemma tidy_ret {A} (a : A) : tidy (ret R a).
Proof. apply tidy_quiet; [reflexivity | discriminate]. Qed.

Lemma tidy_settle {A} (r : Result A) : tidy (settle R r).
Proof.
  apply tidy_quiet; intros w; rewrite settle_run;
    [reflexivity | intros code; apply outcome_not_exit].
Qed.

Lemma tidy_get_prop v name : tidy (get_prop R v name).
Proof. apply tidy_quiet; intros w; destruct v; (reflexivity || discriminate). Qed.

Lemma tidy_loadKey : tidy (loadKey R).
Proof.
  apply tidy_quiet.
  - intros w. rewrite loadKey_reads. reflexivity.
  - intros w code.
    destruct (disk w !! KEY_FILE) as [text|] eqn:Hfile.
    + rewrite (loadKey_present R w text Hfile).
      destruct (JSON_parse R text); discriminate.
    + rewrite (loadKey_absent R w Hfile). discriminate.
Qed.

Lemma tidy_log args : tidy (console_log R args).
Proof. apply tidy_quiet; [reflexivity | discriminate]. Qed.

(** The one way the program writes to [stderr]. *)
Lemma tidy_fail {A} args :
  tidy (bind R (console_error R args) (fun _ => @process_exit R A 1)).
Proof. intros w. right. split; [reflexivity|]. exists args. reflexivity. Qed.

Lemma tidy_exit {A} (code : Z) :
  code = 0%Z \/ code = 1%Z -> tidy (@process_exit R A code).
Proof.
  intros Hcode w. left. split; [reflexivity|]. intros c [= <-]. exact Hcode.
Qed.

Lemma tidy_randomBytes n : tidy (crypto_randomBytes_toString_hex R n).
Proof. apply tidy_quiet; [reflexivity | discriminate]. Qed.

Lemma tidy_fromRandom : tidy (PrivateKey_fromRandom R).
Proof. apply tidy_quiet; [reflexivity | discriminate]. Qed.

Lemma tidy_toPublicKey hex : tidy (PrivateKey_toPublicKey R hex).
Proof.
  apply tidy_quiet; intros w; rewrite toPublicKey_run;
    [reflexivity | intros code; apply outcome_not_exit].
Qed.

Lemma tidy_createWalletSQLite a : tidy (createWalletSQLite R a).
Proof.
  apply tidy_quiet; intros w; rewrite createWalletSQLite_run;
    [reflexivity | intros code; apply outcome_not_exit].
Qed.

Lemma tidy_encrypt wl a : tidy (encrypt R wl a).
Proof.
  apply tidy_quiet; intros w; rewrite encrypt_run;
    [reflexivity | intros code; apply outcome_not_exit].
Qed.

Lemma tidy_createSignature wl a : tidy (createSignature R wl a).
Proof.
  apply tidy_quiet; intros w; rewrite createSignature_run;
    [reflexivity | intros code; apply outcome_not_exit].
Qed.

Lemma tidy_verifySignature wl a : tidy (verifySignature R wl a).
Proof.
  apply tidy_quiet; intros w; rewrite verifySignature_run;
    [reflexivity | intros code; apply outcome_not_exit].
Qed.

Lemma tidy_decrypt wl a : tidy (decrypt R wl a).
Proof.
  apply tidy_quiet; intros w; rewrite decrypt_run;
    [reflexivity | intros code; apply outcome_not_exit].
Qed.

Lemma tidy_destroy wl : tidy (destroy R wl).
Proof.
  apply tidy_quiet; intros w; rewrite destroy_run;
    [reflexivity | intros code; apply outcome_not_exit].
Qed.

Lemma tidy_saveKey p i : tidy (saveKey R p i).
Proof. apply tidy_quiet; [reflexivity | discriminate]. Qed.

Lemma tidy_catch (run : M R unit) : tidy run -> tidy (catch R run).
Proof.
  intros Hrun w. specialize (Hrun w). unfold catch.
  destruct (run w) as [[[] | code | e] w1]; simpl in *; try exact Hrun.
  destruct Hrun as [[Hsame _] | [Hexit _]]; [|discriminate].
  right. split; [reflexivity|]. exists [JStr "Error:"; JStr e].
  simpl. rewrite Hsame. reflexivity.
Qed.

End Tidy.

(** Walks a command for the [stderr] discipline. *)
Ltac tidy_walk :=
  repeat match goal with
    | |- tidy (bind _ (console_error _ _) (fun _ => process_exit _ 1)) =>
        apply tidy_fail
    | |- tidy (bind _ _ _) => apply tidy_bind; [|intros ?]
    | |- tidy (ret _ _) => apply tidy_ret
    | |- tidy (process_exit _ _) => apply tidy_exit; auto
    | |- tidy (settle _ _) => apply tidy_settle
    | |- tidy (get_prop _ _ _) => apply tidy_get_prop
    | |- tidy (loadKey _) => apply tidy_loadKey
    | |- tidy (console_log _ _) => apply tidy_log
    | |- tidy (PrivateKey_toPublicKey _ _) => apply tidy_toPublicKey
    | |- tidy (PrivateKey_fromRandom _) => apply tidy_fromRandom
    | |- tidy (crypto_randomBytes_toString_hex _ _) => apply tidy_randomBytes
    | |- tidy (createWalletSQLite _ _) => apply tidy_createWalletSQLite
    | |- tidy (destroy _ _) => apply tidy_destroy
    | |- tidy (encrypt _ _ _) => apply tidy_encrypt
    | |- tidy (createSignature _ _ _) => apply tidy_createSignature
    | |- tidy (verifySignature _ _ _) => apply tidy_verifySignature
    | |- tidy (decrypt _ _ _) => apply tidy_decrypt
    | |- tidy (saveKey _ _ _) => apply tidy_saveKey
    | |- tidy (if ?b then _ else _) => destruct b
    end.

Section TidyCommands.

Variable R : Runtime.

Lemma tidy_createWallet rootKeyHex : tidy (createWallet R rootKeyHex).
Proof. unfold createWallet. tidy_walk. Qed.

Lemma tidy_loadWallet : tidy (loadWallet R).
Proof. unfold loadWallet. tidy_walk. apply tidy_createWallet. Qed.

Lemma tidy_runInit : tidy (runInit R).
Proof. unfold runInit. tidy_walk. apply tidy_createWallet. Qed.

Lemma tidy_runIdentity : tidy (runIdentity R).
Proof. unfold runIdentity. tidy_walk. Qed.

Lemma tidy_runEncrypt argv : tidy (runEncrypt R argv).
Proof. unfold runEncrypt. cbv zeta. tidy_walk. apply tidy_loadWallet. Qed.

Lemma tidy_runDecrypt argv : tidy (runDecrypt R argv).
Proof. unfold runDecrypt. cbv zeta. tidy_walk. apply tidy_loadWallet. Qed.

Lemma tidy_runDemo : tidy (runDemo R).
Proof. unfold runDemo. cbv zeta. tidy_walk; apply tidy_createWallet. Qed.

Lemma tidy_main argv : tidy (main R argv).
Proof.
  unfold main. cbv zeta.
  repeat match goal with
         | |- tidy (if ?b then _ else _) => destruct b
         end;
    try apply tidy_catch.
  - apply tidy_runInit.
  - apply tidy_runIdentity.
  - apply tidy_runEncrypt.
  - apply tidy_runDecrypt.
  - apply tidy_runDemo.
  - unfold printUsage. tidy_walk.
Qed.

(** X14.  Exit codes and [stderr] go together, for every command line
    and every world: the process ends with status 0 or 1; it writes at
    most one line to [stderr]; and whenever it does write one, the
    status is 1 (so a run that ends with status 0 has left [stderr]
    untouched). *)
Theorem stderr_means_exit_1 (argv : list string) (w : World R) :
  (exit_code (fst (main R argv w)) = 0%Z \/
   exit_code (fst (main R argv w)) = 1%Z) /\
  (stderr (snd (main R argv w)) = stderr w \/
   exists line, stderr (snd (main R argv w)) = stderr w ++ [line]) /\
  (stderr (snd (main R argv w)) <> stderr w ->
   exit_code (fst (main R argv w)) = 1%Z) /\
  (exit_code (fst (main R argv w)) = 0%Z ->
   stderr (snd (main R argv w)) = stderr w).
Proof.
  pose proof (tidy_main argv w) as Htidy.
  destruct (main R argv w) as [r w']. simpl in *.
  destruct Htidy as [[Hsame Hcodes] | [-> (line & Hline)]].
  - repeat split.
    + destruct r as [a | code | e]; simpl; auto.
    + left. exact Hsame.
    + intros Hdiff. contradiction.
    + intros _. exact Hsame.
  - repeat split; simpl.
    + right. reflexivity.
    + right. exists line. exact Hline.
    + discriminate.
Qed.

End TidyCommands.

Lemma stderr_witness :
  exit_code
    (fst (main Mock.runtime (decrypt_argv "{bad") (start Sample.bob_disk 0)))
  = 1%Z.
Proof.
  apply (proj1 (proj2 (proj2 (stderr_means_exit_1 Mock.runtime
                                (decrypt_argv "{bad")
                                (start Sample.bob_disk 0))))).
  cbv. discriminate.
Defined.

(** ** The demo's verdict *)

Section DemoMismatch.

Variable R : Runtime.

Ltac demo_createWallet :=
  match goal with
  | |- context [bind R (createWallet R ?k) ?f ?w0] =>
      let r := fresh "r" in
      let w' := fresh "w" in
      let Hcw := fresh "Hcw" in
      let Hquiet := fresh "Hquiet" in
      pose proof (createWallet_stdout R k w0) as Hquiet;
      destruct (createWallet R k w0) as [r w'] eqn:Hcw;
      simpl in Hquiet;
      rewrite (bind_run R (createWallet R k) f w0 w' r Hcw);
      destruct r as [? | ? | ?]
  end.

Ltac demo_outcome :=
  match goal with
  | |- context [outcome ?r] => destruct r eqn:?; cbn [outcome]
  end.

(** A demo that printed "Round-trip OK: false" did not return. *)
Lemma runDemo_mismatch (w : World R) :
  let '(r, w') := runDemo R w in
  In (ROUND_TRIP_OK false) (new_stdout w w') -> r <> Ret tt.
Proof.
  unfold runDemo. cbv zeta.
  repeat run_step.
  demo_createWallet; [|discriminate..].
  repeat run_step.
  demo_createWallet; [|discriminate..].
  repeat run_step.
  do 6 (demo_outcome; [|discriminate]; repeat run_step).
  destruct (String.eqb (Utils_toUTF8 R _) DEMO_PLAINTEXT); cbn [negb];
    [|discriminate].
  unfold ret.
  erewrite new_stdout_app
    by (simpl; rewrite Hquiet0, Hquiet; rewrite <- !app_assoc; reflexivity).
  intros Hin. exfalso. simpl in Hin. unfold ROUND_TRIP_OK in Hin.
  repeat (destruct Hin as [Hin | Hin]; [discriminate|]).
  exact Hin.
Qed.

(** X15.  The demo's exit status is its verdict: a run that printed
    "Round-trip OK: false" ends with status 1, and a run that ends with
    status 0 printed "Round-trip OK: true" and never "Round-trip OK:
    false". *)
Theorem demo_mismatch_exits_1 (w : World R) :
  (In (ROUND_TRIP_OK false) (new_stdout w (snd (main R DEMO_ARGV w))) ->
   exit_code (fst (main R DEMO_ARGV w)) = 1%Z) /\
  (exit_code (fst (main R DEMO_ARGV w)) = 0%Z ->
   In (ROUND_TRIP_OK true) (new_stdout w (snd (main R DEMO_ARGV w))) /\
   ~ In (ROUND_TRIP_OK false) (new_stdout w (snd (main R DEMO_ARGV w)))).
Proof.
  rewrite (main_demo R DEMO_ARGV eq_refl).
  rewrite catch_exit_code, new_stdout_catch.
  pose proof (runDemo_mismatch w) as Hmismatch.
  pose proof (runDemo_verdict R w) as Hverdict.
  destruct (runDemo R w) as [[[] | code | e] w']; simpl in *.
  - split.
    + intros Hin. exfalso. apply (Hmismatch Hin). reflexivity.
    + intros _. split; [exact Hverdict|].
      intros Hin. apply (Hmismatch Hin). reflexivity.
  - subst code. split; [reflexivity | discriminate].
  - split; [reflexivity | discriminate].
Qed.

End DemoMismatch.

Lemma demo_verdict_witness :
  In (ROUND_TRIP_OK true)
    (new_stdout (start Sample.bob_disk 3)
       (snd (main Mock.runtime DEMO_ARGV (start Sample.bob_disk 3)))).
Proof.
  apply (proj2 (demo_mismatch_exits_1 Mock.runtime (start Sample.bob_disk 3))).
  vm_compute. reflexivity.
Defined.
